(** * API controllers of the issuer node (internal/api/server.go)

    A shallow embedding of the [Server] controllers [Health],
    [CreateIdentity], [CreateClaim] and [RevokeClaim], and the properties
    of the issuance pipeline, of its error mapping and of the order in
    which it calls its collaborators.

    The controllers only orchestrate: every service they talk to is a Go
    interface ([ports.IndentityService], [ports.ClaimsService],
    [ports.SchemaService]) and every helper comes from another package.
    Services are records of functions, imported packages are a class of
    operations, and a controller is a state-passing function over a
    [World] that holds the claim store, the entropy source, the list of
    the outgoing calls and the log lines. *)

From Stdlib Require Import ZArith Lia.
From stdpp Require Import base strings gmap list pretty.

Set Warnings "-register-all".

Local Open Scope Z_scope.
Local Open Scope string_scope.

(** ** Go values *)

(** A Go [error] value: [addr] stands for its identity (what [==]
    compares on two error values), [text] is what [Error()] returns and
    [cause] is what [Unwrap()] returns ([errors_New] has none). *)
Inductive error : Type :=
| errors_New (addr : positive) (text : string)
| fmt_Errorf_w (addr : positive) (text : string) (cause : error).

Definition Error (e : error) : string :=
  match e with errors_New _ t | fmt_Errorf_w _ t _ => t end.

Definition Unwrap (e : error) : option error :=
  match e with errors_New _ _ => None | fmt_Errorf_w _ _ c => Some c end.

Definition error_addr (e : error) : positive :=
  match e with errors_New a _ | fmt_Errorf_w a _ _ => a end.

(** [err == target] on two non-nil error values. *)
Definition error_eqb (err target : error) : bool :=
  bool_decide (error_addr err = error_addr target).

(** [errors.Is(err, target)] for a non-nil [err]: walks the [Unwrap]
    chain of [err] and compares every link with [target]. *)
Fixpoint errors_Is (err target : error) : bool :=
  match err with
  | errors_New _ _ => error_eqb err target
  | fmt_Errorf_w _ _ cause => error_eqb err target || errors_Is cause target
  end.

(** A Go pair [(value, err)] as returned by a fallible call. *)
Inductive result (A : Type) : Type :=
| Ok (a : A)
| Err (e : error).
Arguments Ok {A} a.
Arguments Err {A} e.

Definition result_err {A} (r : result A) : option error :=
  match r with Ok _ => None | Err e => Some e end.

(** A value of type [interface{}] as JSON decoding produces it. *)
Inductive any : Type :=
| any_nil
| any_bool (b : bool)
| any_number (n : Z)
| any_string (s : string)
| any_array (l : list any)
| any_object (fields : list (string * any)).

(** [m[k]] on a [map[string]interface{}]: a missing key reads as nil. *)
Definition map_index (m : gmap string any) (k : string) : any :=
  default any_nil (m !! k).

(** [v, ok := x.(string)]. *)
Definition assert_string (x : any) : string * bool :=
  match x with
  | any_string s => (s, true)
  | _ => ("", false)
  end.

(** [uint64(x)] on a signed 64-bit integer. *)
Definition uint64 (x : Z) : Z := x mod 2 ^ 64.

(** [fmt.Sprintf("%s#%s", a, b)] and [fmt.Sprintf("%s:%d", a, n)]. *)
Definition Sprintf_s_hash_s (a b : string) : string := a +:+ "#" +:+ b.
Definition Sprintf_s_colon_d (a : string) (n : Z) : string :=
  a +:+ ":" +:+ pretty n.

(** ** Types of the imported packages *)

(** Types the controllers never look into: they receive values of these
    types from one collaborator and hand them to the next. *)
Class Opaque : Type := {
  DID : Type;              (* core.DID *)
  CoreClaim : Type;        (* core.Claim *)
  UUID : Type;             (* uuid.UUID *)
  time_Time : Type;        (* time.Time *)
  CredentialBody : Type;   (* verifiable.W3CCredential, all but the status *)
  ProofBody : Type;        (* verifiable.BJJSignatureProof2021, all but the issuer data *)
  IssuerDataBody : Type;   (* verifiable.IssuerData, all but the credential status *)
  Store : Type;            (* what the repositories hold *)
  Entropy : Type           (* the state of the random source *)
}.

Module pgtype.
Inductive Status : Type := Undefined | Null | Present.
Record JSONB : Type := { Bytes : list Byte.byte; Status_ : Status }.
End pgtype.

Module verifiable.
Record W3CCredential {O : Opaque} : Type := {
  CredentialStatus : any;
  Body : CredentialBody
}.
Record IssuerData_t {O : Opaque} : Type := {
  IssuerCredentialStatus : any;
  IssuerRest : IssuerDataBody
}.
Record BJJSignatureProof2021 {O : Opaque} : Type := {
  IssuerData : IssuerData_t;
  Rest : ProofBody
}.
End verifiable.

Module jsonSuite.
Record SchemaMetadata : Type := {
  Uris : gmap string any;
  Serialization : any
}.
(** [Metadata] is a pointer: a schema document without a "$metadata"
    entry resolves to a schema whose [Metadata] is nil. *)
Record Schema : Type := { Metadata : option SchemaMetadata }.
End jsonSuite.

Module processor.
Record CoreClaimOptions : Type := {
  RevNonce : Z;
  MerklizedRootPosition : string;
  Version : Z;
  SubjectPosition : string;
  Updatable : bool
}.
End processor.

Module domain.
(** The persisted claim. [Identifier], [Issuer], [RevNonce],
    [SignatureProof], [Data], [CredentialStatus] and [ID] are the fields
    the controllers touch; [SchemaURL], [SchemaType] and [CoreClaim] are
    what [FromClaimer] is given to build the record from. *)
Record Claim {O : Opaque} : Type := {
  ID : UUID;
  Identifier : option string;
  Issuer : string;
  SchemaURL : string;
  SchemaType : string;
  RevNonce : Z;
  Data : pgtype.JSONB;
  SignatureProof : pgtype.JSONB;
  CredentialStatus : pgtype.JSONB;
  CoreClaim_ : CoreClaim
}.

Definition set_Identifier {O : Opaque} (v : option string) (c : Claim) : Claim :=
  {| ID := ID c; Identifier := v; Issuer := Issuer c;
     SchemaURL := SchemaURL c; SchemaType := SchemaType c;
     RevNonce := RevNonce c; Data := Data c;
     SignatureProof := SignatureProof c;
     CredentialStatus := CredentialStatus c; CoreClaim_ := CoreClaim_ c |}.

Definition set_Issuer {O : Opaque} (v : string) (c : Claim) : Claim :=
  {| ID := ID c; Identifier := Identifier c; Issuer := v;
     SchemaURL := SchemaURL c; SchemaType := SchemaType c;
     RevNonce := RevNonce c; Data := Data c;
     SignatureProof := SignatureProof c;
     CredentialStatus := CredentialStatus c; CoreClaim_ := CoreClaim_ c |}.

Definition set_SignatureProof {O : Opaque} (v : pgtype.JSONB) (c : Claim) : Claim :=
  {| ID := ID c; Identifier := Identifier c; Issuer := Issuer c;
     SchemaURL := SchemaURL c; SchemaType := SchemaType c;
     RevNonce := RevNonce c; Data := Data c;
     SignatureProof := v;
     CredentialStatus := CredentialStatus c; CoreClaim_ := CoreClaim_ c |}.

Definition set_Data {O : Opaque} (v : pgtype.JSONB) (c : Claim) : Claim :=
  {| ID := ID c; Identifier := Identifier c; Issuer := Issuer c;
     SchemaURL := SchemaURL c; SchemaType := SchemaType c;
     RevNonce := RevNonce c; Data := v;
     SignatureProof := SignatureProof c;
     CredentialStatus := CredentialStatus c; CoreClaim_ := CoreClaim_ c |}.

Definition set_CredentialStatus {O : Opaque} (v : pgtype.JSONB) (c : Claim) : Claim :=
  {| ID := ID c; Identifier := Identifier c; Issuer := Issuer c;
     SchemaURL := SchemaURL c; SchemaType := SchemaType c;
     RevNonce := RevNonce c; Data := Data c;
     SignatureProof := SignatureProof c;
     CredentialStatus := v; CoreClaim_ := CoreClaim_ c |}.

Record IdentityState {O : Opaque} : Type := {
  BlockNumber : option Z;
  BlockTimestamp : option Z;
  ClaimsTreeRoot : option string;
  CreatedAt : time_Time;
  ModifiedAt : time_Time;
  PreviousState : option string;
  RevocationTreeRoot : option string;
  RootOfRoots : option string;
  State_ : option string;
  Status : string;
  TxID : option string
}.

Record Identity {O : Opaque} : Type := {
  IdIdentifier : string;
  Immutable : bool;
  Relay : string;
  State : IdentityState
}.
End domain.

Module ports.
Record ClaimRequest {O : Opaque} : Type := {
  Schema : jsonSuite.Schema;
  DID_ : DID;
  CredentialSchema : string;
  CredentialSubject : gmap string any;
  Expiration : option Z;
  Type_ : string;
  Version : Z;
  SubjectPos : string;
  MerklizedRootPosition : string
}.

(** [ports.IndentityService]: the methods the controllers call. *)
Record IndentityService {O : Opaque} : Type := {
  Create : string -> Store -> result domain.Identity * Store;
  SignClaimEntry :
    domain.Claim -> CoreClaim -> result verifiable.BJJSignatureProof2021
}.

(** [ports.ClaimsService]. [Save] and [Revoke] write to the store,
    [GetAuthClaim] reads it. *)
Record ClaimsService {O : Opaque} : Type := {
  CreateVC : ports.ClaimRequest -> Z -> result verifiable.W3CCredential;
  GetAuthClaim : DID -> Store -> result domain.Claim;
  GetRevocationSource : string -> Z -> any;
  Save : domain.Claim -> Store -> result domain.Claim * Store;
  Revoke : string -> Z -> string -> Store -> option error * Store
}.

(** [ports.SchemaService]. *)
Record SchemaService {O : Opaque} : Type := {
  LoadSchema : string -> result jsonSuite.Schema;
  Process :
    string -> string -> verifiable.W3CCredential ->
    processor.CoreClaimOptions -> result CoreClaim
}.
End ports.

(** ** Requests and responses (the generated API types) *)

Record CreateClaimJSONRequestBody : Type := {
  body_CredentialSchema : string;
  body_CredentialSubject : gmap string any;
  body_Expiration : option Z;
  body_Type : string;
  body_Version : option Z;
  body_SubjectPosition : option string;
  body_MerklizedRootPosition : option string
}.

Record CreateClaimRequestObject : Type := {
  req_Identifier : string;
  req_Body : CreateClaimJSONRequestBody
}.

Record HealthRequestObject : Type := {}.
Record CreateIdentityRequestObject : Type := {}.

Record RevokeClaimRequestObject : Type := {
  revoke_Identifier : string;
  revoke_Nonce : Z             (* int64 *)
}.

Record N400JSONResponse : Type := { Message400 : string }.
Record N404JSONResponse : Type := { Message404 : string }.
Record N500JSONResponse : Type := { Message500 : string }.

Record Health200JSONResponse : Type := { Cache : bool; Db : bool }.

Record IdentityState {O : Opaque} : Type := {
  BlockNumber : option Z;
  BlockTimestamp : option Z;
  ClaimsTreeRoot : option string;
  CreatedAt : time_Time;
  ModifiedAt : time_Time;
  PreviousState : option string;
  RevocationTreeRoot : option string;
  RootOfRoots : option string;
  State : option string;
  Status : string;
  TxID : option string
}.

Record CreateIdentity201JSONResponse {O : Opaque} : Type := {
  resp_Identifier : option string;
  resp_Immutable : bool;
  resp_Relay : string;
  resp_State : option IdentityState
}.

(** The response objects each controller builds in this file. *)
Inductive CreateIdentityResponseObject {O : Opaque} : Type :=
| CreateIdentity201 (r : CreateIdentity201JSONResponse).

Inductive CreateClaimResponseObject : Type :=
| CreateClaim201JSONResponse (Id : string)
| CreateClaim400JSONResponse (r : N400JSONResponse)
| CreateClaim500JSONResponse (r : N500JSONResponse).

Inductive RevokeClaimResponseObject : Type :=
| RevokeClaim202JSONResponse (Status : string)
| RevokeClaim404JSONResponse (r : N404JSONResponse)
| RevokeClaim500JSONResponse (r : N500JSONResponse).

(** ** Imported packages *)

(** The dynamic types on which this file calls [pgtype.JSONB.Set]. *)
Inductive SetSrc {O : Opaque} : Type :=
| src_bytes (b : list Byte.byte)
| src_credential (vc : verifiable.W3CCredential)
| src_any (a : any).

(** Package-level functions of the imported packages. [rand_Int64]
    draws from the entropy source; the others depend on their arguments
    only. *)
Class Packages {O : Opaque} : Type := {
  core_ParseDID : string -> result DID;
  DID_String : DID -> string;
  UUID_String : UUID -> string;
  rand_Int64 : Entropy -> result Z * Entropy;
  ports_NewClaimRequest :
    jsonSuite.Schema -> DID -> string -> gmap string any -> option Z ->
    string -> option Z -> option string -> option string ->
    ports.ClaimRequest;
  common_DefineMerklizedRootPosition :
    option jsonSuite.SchemaMetadata -> string -> string;
  domain_FromClaimer : CoreClaim -> string -> string -> result domain.Claim;
  json_Marshal : verifiable.BJJSignatureProof2021 -> result (list Byte.byte);
  JSONB_Set : SetSrc -> result pgtype.JSONB;
  repositories_ErrClaimDoesNotExist : error
}.


Module config.
Record Configuration : Type := { ServerUrl : string; ServerPort : Z }.
End config.

(** [Server] holds the configuration and the three services. *)
Record Server {O : Opaque} : Type := {
  cfg : config.Configuration;
  identityService : ports.IndentityService;
  claimService : ports.ClaimsService;
  schemaService : ports.SchemaService
}.

Definition NewServer {O : Opaque} (cfg : config.Configuration)
    (identityService : ports.IndentityService)
    (claimsService : ports.ClaimsService)
    (schemaService : ports.SchemaService) : Server :=
  {| cfg := cfg; identityService := identityService;
     claimService := claimsService; schemaService := schemaService |}.

(** ** The world a controller runs in *)

(** One outgoing call of a controller, with the arguments it was given. *)
Inductive Call {O : Opaque} : Type :=
| call_ParseDID (identifier : string)
| call_LoadSchema (url : string)
| call_rand_Int64
| call_CreateVC (req : ports.ClaimRequest) (nonce : Z)
| call_Process (url credentialType : string)
    (vc : verifiable.W3CCredential) (opts : processor.CoreClaimOptions)
| call_FromClaimer (c : CoreClaim) (url credentialType : string)
| call_GetAuthClaim (did : DID)
| call_SignClaimEntry (authClaim : domain.Claim) (c : CoreClaim)
| call_GetRevocationSource (issuer : string) (nonce : Z)
| call_json_Marshal (proof : verifiable.BJJSignatureProof2021)
| call_Set_SignatureProof (src : SetSrc)
| call_Set_Data (src : SetSrc)
| call_Set_CredentialStatus (src : SetSrc)
| call_Save (claim : domain.Claim)
| call_Revoke (identifier : string) (nonce : Z) (description : string)
| call_Create (hostURL : string).

(** A call together with the error it came back with, if any. *)
Record Event {O : Opaque} : Type := {
  ev_call : Call;
  ev_err : option error
}.

Inductive Level : Type := level_Error | level_Warn.

Record LogLine : Type := {
  log_level : Level;
  log_msg : string;
  log_err : option error
}.

Record World {O : Opaque} : Type := {
  store : Store;
  entropy : Entropy;
  calls : list Event;
  logged : list LogLine
}.

Definition with_store {O : Opaque} (st : Store) (w : World) : World :=
  {| store := st; entropy := entropy w; calls := calls w; logged := logged w |}.

Definition with_entropy {O : Opaque} (en : Entropy) (w : World) : World :=
  {| store := store w; entropy := en; calls := calls w; logged := logged w |}.

Definition emit {O : Opaque} (c : Call) (e : option error) (w : World) : World :=
  {| store := store w; entropy := entropy w;
     calls := calls w ++ [ {| ev_call := c; ev_err := e |} ];
     logged := logged w |}.

(** A statement of a controller: it may change the world and yields a
    value. *)
Definition M {O : Opaque} (A : Type) : Type := World -> A * World.

Definition Return {O : Opaque} {A} (a : A) : M A := fun w => (a, w).

Definition seq {O : Opaque} {A B} (c : M A) (k : A -> M B) : M B :=
  fun w => let '(a, w') := c w in k a w'.

(** [x, err := c; if err != nil { h }; k]: the handler [h] ends the
    controller. *)
Definition check {O : Opaque} {A R} (c : M (result A))
    (h : error -> M R) (k : A -> M R) : M R :=
  fun w =>
    match c w with
    | (Ok a, w') => k a w'
    | (Err e, w') => h e w'
    end.

Declare Scope go_scope.
Delimit Scope go_scope with go.
Notation "c1 ;; c2" := (seq c1 (fun _ => c2))
  (at level 100, c2 at level 200, right associativity) : go_scope.
Notation "'go' x <- c ;; k" := (seq c (fun x => k))
  (at level 10, x name, c at level 99, k at level 200) : go_scope.
Notation "'go' x <- c 'iferr' e => h ;; k" :=
  (check c (fun e => h) (fun x => k))
  (at level 10, x name, e name, c at level 99, h at level 99,
   k at level 200) : go_scope.

(** The ways a controller reaches a collaborator. Each one records the
    call. *)
Definition call_pure {O : Opaque} {A} (c : Call) (r : result A) : M (result A) :=
  fun w => (r, emit c (result_err r) w).

Definition call_total {O : Opaque} {A} (c : Call) (a : A) : M A :=
  fun w => (a, emit c None w).

Definition call_read {O : Opaque} {A} (c : Call) (f : Store -> result A)
  : M (result A) :=
  fun w => let r := f (store w) in (r, emit c (result_err r) w).

Definition call_write {O : Opaque} {A} (c : Call)
    (f : Store -> result A * Store) : M (result A) :=
  fun w =>
    let '(r, st) := f (store w) in
    (r, emit c (result_err r) (with_store st w)).

Definition call_entropy {O : Opaque} {A} (c : Call)
    (f : Entropy -> result A * Entropy) : M (result A) :=
  fun w =>
    let '(r, en) := f (entropy w) in
    (r, emit c (result_err r) (with_entropy en w)).

Definition log_Error {O : Opaque} (msg : string) (err : error) : M unit :=
  fun w =>
    (tt, {| store := store w; entropy := entropy w; calls := calls w;
            logged := logged w ++
              [ {| log_level := level_Error; log_msg := msg;
                   log_err := Some err |} ] |}).

Definition log_Warn {O : Opaque} (msg : string) : M unit :=
  fun w =>
    (tt, {| store := store w; entropy := entropy w; calls := calls w;
            logged := logged w ++
              [ {| log_level := level_Warn; log_msg := msg;
                   log_err := None |} ] |}).

(** [proof.IssuerData.CredentialStatus = v]. *)
Definition set_IssuerData_CredentialStatus {O : Opaque} (v : any)
    (proof : verifiable.BJJSignatureProof2021)
  : verifiable.BJJSignatureProof2021 :=
  {| verifiable.IssuerData :=
       {| verifiable.IssuerCredentialStatus := v;
          verifiable.IssuerRest :=
            verifiable.IssuerRest (verifiable.IssuerData proof) |};
     verifiable.Rest := verifiable.Rest proof |}.

(** ** The controllers *)

Local Open Scope go_scope.

(** What a controller returns: the response object (nil or not) and the
    Go error (nil or not). A collaborator that reports no error hands
    back a value, never a nil pointer; the one pointer the controllers
    follow inside such a value is the [Metadata] of a schema, which may
    be nil. *)
Definition Returned (R : Type) : Type := (option R * option error)%type.

Definition Health {O : Opaque} (s : Server) (_ : HealthRequestObject)
  : M (Returned Health200JSONResponse) :=
  Return (Some {| Cache := true; Db := false |}, None).

Definition CreateIdentity {O : Opaque} (s : Server)
    (request : CreateIdentityRequestObject)
  : M (Returned CreateIdentityResponseObject) :=
  let hostURL :=
    Sprintf_s_colon_d (config.ServerUrl (cfg s)) (config.ServerPort (cfg s)) in
  go identity <- call_write (call_Create hostURL)
                   (ports.Create (identityService s) hostURL)
    iferr err => Return (None, Some err) ;;
  Return
    (Some (CreateIdentity201
       {| resp_Identifier := Some (domain.IdIdentifier identity);
          resp_Immutable := domain.Immutable identity;
          resp_Relay := domain.Relay identity;
          resp_State := Some
            {| BlockNumber := domain.BlockNumber (domain.State identity);
               BlockTimestamp := domain.BlockTimestamp (domain.State identity);
               ClaimsTreeRoot := domain.ClaimsTreeRoot (domain.State identity);
               CreatedAt := domain.CreatedAt (domain.State identity);
               ModifiedAt := domain.ModifiedAt (domain.State identity);
               PreviousState := domain.PreviousState (domain.State identity);
               RevocationTreeRoot :=
                 domain.RevocationTreeRoot (domain.State identity);
               RootOfRoots := domain.RootOfRoots (domain.State identity);
               State := domain.State_ (domain.State identity);
               Status := domain.Status (domain.State identity);
               TxID := domain.TxID (domain.State identity) |} |}),
     None).

(** How a call of a controller ends: it returns its pair, or it panics
    and returns nothing. *)
Inductive Outcome (R : Type) : Type :=
| returns (r : Returned R)
| panics (v : string).
Arguments returns {R} r.
Arguments panics {R} v.

(** The value of the panic of the Go runtime on a nil pointer. *)
Definition nil_pointer_dereference : string :=
  "runtime error: invalid memory address or nil pointer dereference".

Definition panic {O : Opaque} {R} (v : string) : M (Outcome R) :=
  Return (panics v).

(** [return CreateClaim400JSONResponse{N400JSONResponse{Message: msg}}, nil] *)
Definition return400 {O : Opaque} (msg : string)
  : M (Outcome CreateClaimResponseObject) :=
  Return
    (returns
       (Some (CreateClaim400JSONResponse {| Message400 := msg |}), None)).

(** [return CreateClaim500JSONResponse{N500JSONResponse{Message: msg}}, nil] *)
Definition return500 {O : Opaque} (msg : string)
  : M (Outcome CreateClaimResponseObject) :=
  Return
    (returns
       (Some (CreateClaim500JSONResponse {| Message500 := msg |}), None)).

Definition CreateClaim {O : Opaque} {P : Packages} (s : Server)
    (request : CreateClaimRequestObject)
  : M (Outcome CreateClaimResponseObject) :=
  let body := req_Body request in
  if bool_decide (req_Identifier request = "") then
    return400 "Invalid request identifier"
  else
  go did <- call_pure (call_ParseDID (req_Identifier request))
              (core_ParseDID (req_Identifier request))
    iferr err => return400 (Error err) ;;
  go schema <- call_pure (call_LoadSchema (body_CredentialSchema body))
                 (ports.LoadSchema (schemaService s) (body_CredentialSchema body))
    iferr err => return400 (Error err) ;;
  let claimReq :=
    ports_NewClaimRequest schema did (body_CredentialSchema body)
      (body_CredentialSubject body) (body_Expiration body) (body_Type body)
      (body_Version body) (body_SubjectPosition body)
      (body_MerklizedRootPosition body) in
  go nonce <- call_entropy call_rand_Int64 rand_Int64
    iferr err => (log_Error "Can not create a nonce" err ;;
                  return500 (Error err)) ;;
  go vc <- call_pure (call_CreateVC claimReq nonce)
             (ports.CreateVC (claimService s) claimReq nonce)
    iferr err => (log_Error "Can not create a claim" err ;;
                  return500 (Error err)) ;;
  match jsonSuite.Metadata schema with
  | None => panic nil_pointer_dereference
  | Some metadata =>
  let '(jsonLdContext, ok) :=
    assert_string (map_index (jsonSuite.Uris metadata) "jsonLdContext") in
  if negb ok then
    log_Warn "invalid jsonLdContext" ;;
    return400 "invalid jsonLdContext"
  else
  let credentialType := Sprintf_s_hash_s jsonLdContext (body_Type body) in
  let mtRootPostion :=
    common_DefineMerklizedRootPosition (jsonSuite.Metadata schema)
      (ports.MerklizedRootPosition claimReq) in
  let opts :=
    {| processor.RevNonce := nonce;
       processor.MerklizedRootPosition := mtRootPostion;
       processor.Version := ports.Version claimReq;
       processor.SubjectPosition := ports.SubjectPos claimReq;
       processor.Updatable := false |} in
  go coreClaim <- call_pure
                    (call_Process (ports.CredentialSchema claimReq)
                       credentialType vc opts)
                    (ports.Process (schemaService s)
                       (ports.CredentialSchema claimReq) credentialType vc opts)
    iferr err => (log_Error "Can not process the schema" err ;;
                  return400 (Error err)) ;;
  go claim <- call_pure
                (call_FromClaimer coreClaim (ports.CredentialSchema claimReq)
                   credentialType)
                (domain_FromClaimer coreClaim (ports.CredentialSchema claimReq)
                   credentialType)
    iferr err => (log_Error "Can not obtain the claim from claimer" err ;;
                  return500 (Error err)) ;;
  go authClaim <- call_read (call_GetAuthClaim did)
                    (ports.GetAuthClaim (claimService s) did)
    iferr err => (log_Error "Can not retrieve the auth claim" err ;;
                  return500 (Error err)) ;;
  go proof <- call_pure (call_SignClaimEntry authClaim coreClaim)
                (ports.SignClaimEntry (identityService s) authClaim coreClaim)
    iferr err => (log_Error "Can not sign claim entry" err ;;
                  return500 (Error err)) ;;
  let issuerDIDString := DID_String did in
  let claim := domain.set_Identifier (Some issuerDIDString) claim in
  let claim := domain.set_Issuer issuerDIDString claim in
  go source <- call_total
                 (call_GetRevocationSource issuerDIDString
                    (uint64 (domain.RevNonce authClaim)))
                 (ports.GetRevocationSource (claimService s) issuerDIDString
                    (uint64 (domain.RevNonce authClaim))) ;;
  let proof := set_IssuerData_CredentialStatus source proof in
  go jsonSignatureProof <- call_pure (call_json_Marshal proof)
                             (json_Marshal proof)
    iferr err => (log_Error "Can not encode the json signature proof" err ;;
                  return500 (Error err)) ;;
  go signatureProof <- call_pure
                         (call_Set_SignatureProof (src_bytes jsonSignatureProof))
                         (JSONB_Set (src_bytes jsonSignatureProof))
    iferr err => (log_Error "Can not set the json signature proof" err ;;
                  return500 (Error err)) ;;
  let claim := domain.set_SignatureProof signatureProof claim in
  go data <- call_pure (call_Set_Data (src_credential vc))
               (JSONB_Set (src_credential vc))
    iferr err => (log_Error "Can not set the credential" err ;;
                  return500 (Error err)) ;;
  let claim := domain.set_Data data claim in
  go credentialStatus <- call_pure
                           (call_Set_CredentialStatus
                              (src_any (verifiable.CredentialStatus vc)))
                           (JSONB_Set (src_any (verifiable.CredentialStatus vc)))
    iferr err => (log_Error "Can not set the credential status" err ;;
                  return500 (Error err)) ;;
  let claim := domain.set_CredentialStatus credentialStatus claim in
  go claimResp <- call_write (call_Save claim)
                    (ports.Save (claimService s) claim)
    iferr err => (log_Error "Can not save the claim" err ;;
                  return500 (Error err)) ;;
  Return
    (returns
       (Some (CreateClaim201JSONResponse (UUID_String (domain.ID claimResp))),
        None))
  end.

(** [Revoke] returns a Go [error], nil or not. *)
Definition call_effect {O : Opaque} (c : Call)
    (f : Store -> option error * Store) : M (option error) :=
  fun w =>
    let '(r, st) := f (store w) in
    (r, emit c r (with_store st w)).

Definition RevokeClaim {O : Opaque} {P : Packages} (s : Server)
    (request : RevokeClaimRequestObject)
  : M (Returned RevokeClaimResponseObject) :=
  go res <- call_effect
              (call_Revoke (revoke_Identifier request)
                 (uint64 (revoke_Nonce request)) "")
              (ports.Revoke (claimService s) (revoke_Identifier request)
                 (uint64 (revoke_Nonce request)) "") ;;
  match res with
  | Some err =>
      if errors_Is err repositories_ErrClaimDoesNotExist then
        Return (Some (RevokeClaim404JSONResponse
                        {| Message404 := "the claim does not exist" |}), None)
      else
        Return (Some (RevokeClaim500JSONResponse
                        {| Message500 := Error err |}), None)
  | None => Return (Some (RevokeClaim202JSONResponse "pending"), None)
  end.

(** ** Observing a run *)

(** What a statement returns when it runs from [w], and the world it
    leaves. *)
Definition response {O : Opaque} {A} (c : M A) (w : World) : A := (c w).1.
Definition final {O : Opaque} {A} (c : M A) (w : World) : World := (c w).2.

(** The calls a statement makes when it runs from [w]: what it appends
    to the calls recorded so far. *)
Definition trace {O : Opaque} {A} (c : M A) (w : World) : list Event :=
  drop (length (calls w)) (calls (final c w)).

(** Whether a call came back without an error. *)
Definition succeeded {O : Opaque} (ev : Event) : bool :=
  match ev_err ev with
  | None => true
  | Some _ => false
  end.

(** The claims handed to [Save] in a list of calls. *)
Definition saved_claims {O : Opaque} (tr : list Event) : list domain.Claim :=
  omap (fun ev => match ev_call ev with
                  | call_Save claim => Some claim
                  | _ => None
                  end) tr.

(** The stages of the issuance pipeline, in the order of the code. *)
Inductive Stage : Type :=
| stage_ParseDID
| stage_LoadSchema
| stage_Nonce
| stage_CreateVC
| stage_Process
| stage_FromClaimer
| stage_GetAuthClaim
| stage_Sign
| stage_RevocationSource
| stage_Marshal
| stage_SetSignatureProof
| stage_SetData
| stage_SetCredentialStatus
| stage_Save
| stage_other.

Definition stage_of {O : Opaque} (c : Call) : Stage :=
  match c with
  | call_ParseDID _ => stage_ParseDID
  | call_LoadSchema _ => stage_LoadSchema
  | call_rand_Int64 => stage_Nonce
  | call_CreateVC _ _ => stage_CreateVC
  | call_Process _ _ _ _ => stage_Process
  | call_FromClaimer _ _ _ => stage_FromClaimer
  | call_GetAuthClaim _ => stage_GetAuthClaim
  | call_SignClaimEntry _ _ => stage_Sign
  | call_GetRevocationSource _ _ => stage_RevocationSource
  | call_json_Marshal _ => stage_Marshal
  | call_Set_SignatureProof _ => stage_SetSignatureProof
  | call_Set_Data _ => stage_SetData
  | call_Set_CredentialStatus _ => stage_SetCredentialStatus
  | call_Save _ => stage_Save
  | call_Revoke _ _ _ | call_Create _ => stage_other
  end.

(** Position of a stage in the pipeline. *)
Definition stage_index (st : Stage) : nat :=
  match st with
  | stage_ParseDID => 0
  | stage_LoadSchema => 1
  | stage_Nonce => 2
  | stage_CreateVC => 3
  | stage_Process => 4
  | stage_FromClaimer => 5
  | stage_GetAuthClaim => 6
  | stage_Sign => 7
  | stage_RevocationSource => 8
  | stage_Marshal => 9
  | stage_SetSignatureProof => 10
  | stage_SetData => 11
  | stage_SetCredentialStatus => 12
  | stage_Save => 13
  | stage_other => 14
  end%nat.

(** The four response variants of the response-shaping layer. *)
Inductive Variant : Type := Success | ClientFault | NotFound | ServerFault.


Definition RevokeClaim_variant (r : RevokeClaimResponseObject) : Variant :=
  match r with
  | RevokeClaim202JSONResponse _ => Success
  | RevokeClaim404JSONResponse _ => NotFound
  | RevokeClaim500JSONResponse _ => ServerFault
  end.

Definition CreateIdentity_variant {O : Opaque}
    (r : CreateIdentityResponseObject) : Variant :=
  match r with CreateIdentity201 _ => Success end.

(** The fault class the specification gives to a failure of each stage
    (section 4.1, steps 1 to 12): identifier parsing, schema resolution
    and core-claim encoding are the caller's fault, every other stage is
    the server's. *)
Definition spec_fault_class (st : Stage) : Variant :=
  match st with
  | stage_ParseDID | stage_LoadSchema | stage_Process => ClientFault
  | _ => ServerFault
  end.

(** The response of a fault class carrying the message of [e]. *)
Definition fault_response (v : Variant) (e : error)
  : Returned CreateClaimResponseObject :=
  match v with
  | ClientFault =>
      (Some (CreateClaim400JSONResponse {| Message400 := Error e |}), None)
  | _ =>
      (Some (CreateClaim500JSONResponse {| Message500 := Error e |}), None)
  end.


(** ** More observations of a run *)

(** The stages of the calls of a run, and the order in which
    [CreateClaim] goes through them. *)
Definition stages {O : Opaque} (tr : list Event) : list Stage :=
  map (fun ev => stage_of (ev_call ev)) tr.

Definition pipeline : list Stage :=
  [ stage_ParseDID; stage_LoadSchema; stage_Nonce; stage_CreateVC;
    stage_Process; stage_FromClaimer; stage_GetAuthClaim; stage_Sign;
    stage_RevocationSource; stage_Marshal; stage_SetSignatureProof;
    stage_SetData; stage_SetCredentialStatus; stage_Save ].

(** Whether a nonce was drawn among the calls. *)
Definition drew {O : Opaque} (tr : list Event) : bool :=
  existsb (fun ev => match ev_call ev with
                     | call_rand_Int64 => true
                     | _ => false
                     end) tr.

(** The message [CreateClaim] logs when a stage fails; identifier
    parsing and schema loading have none. *)
Definition failure_message (st : Stage) : option string :=
  match st with
  | stage_Nonce => Some "Can not create a nonce"
  | stage_CreateVC => Some "Can not create a claim"
  | stage_Process => Some "Can not process the schema"
  | stage_FromClaimer => Some "Can not obtain the claim from claimer"
  | stage_GetAuthClaim => Some "Can not retrieve the auth claim"
  | stage_Sign => Some "Can not sign claim entry"
  | stage_Marshal => Some "Can not encode the json signature proof"
  | stage_SetSignatureProof => Some "Can not set the json signature proof"
  | stage_SetData => Some "Can not set the credential"
  | stage_SetCredentialStatus => Some "Can not set the credential status"
  | stage_Save => Some "Can not save the claim"
  | _ => None
  end.

Definition failure_log (st : Stage) (e : error) : list LogLine :=
  match failure_message st with
  | Some msg =>
      [ {| log_level := level_Error; log_msg := msg; log_err := Some e |} ]
  | None => []
  end.

(** An error wrapped any number of times, as by [fmt.Errorf("...: %w")]. *)
Definition wrap_chain (ws : list (positive * string)) (e : error) : error :=
  foldr (fun '(a, t) cause => fmt_Errorf_w a t cause) e ws.


(** ** Static pages *)

Module http.
Definition StatusOK : Z := 200.
Definition StatusNotFound : Z := 404.

(** [http.ResponseWriter] over a writer state [W]: [Header().Set],
    [Write] and [WriteHeader]. What [Write] returns is dropped by every
    caller in this file. *)
Record ResponseWriter (W : Type) : Type := {
  Header_Set : string -> string -> W -> W;
  Write : list Byte.byte -> W -> W;
  WriteHeader : Z -> W -> W
}.
Arguments Header_Set {W} _ _ _ _.
Arguments Write {W} _ _ _.
Arguments WriteHeader {W} _ _ _.

Record Request : Type := {}.
End http.

(** [os.ReadFile] on the file system of the moment: the bytes and the
    error, both of which [writeFile] goes on to use. *)
Class FileSystem : Type := {
  os_ReadFile : string -> list Byte.byte * option error
}.

Definition writeFile {F : FileSystem} {W} (path : string)
    (rw : http.ResponseWriter W) (w : W) : W :=
  let '(f, err) := os_ReadFile path in
  let w :=
    match err with
    | Some _ =>
        let w := http.WriteHeader rw http.StatusNotFound w in
        http.Write rw (String.list_byte_of_string "not found") w
    | None => w
    end in
  let w := http.Header_Set rw "Content-Type" "text/html; charset=UTF-8" w in
  let w := http.WriteHeader rw http.StatusOK w in
  http.Write rw f w.

Definition documentation {F : FileSystem} {W} (rw : http.ResponseWriter W)
    (_ : http.Request) (w : W) : W :=
  writeFile "api/spec.html" rw w.

Definition swagger {F : FileSystem} {W} (rw : http.ResponseWriter W)
    (_ : http.Request) (w : W) : W :=
  writeFile "api/api.yaml" rw w.

Module chi.
(** The routes of a mux: the handler registered for each method and
    pattern. [mux.Get(pattern, handler)] registers the handler for GET
    on the pattern and takes the place of a handler registered there
    before. *)
Definition Handler (W : Type) : Type :=
  http.ResponseWriter W -> http.Request -> W -> W.

Definition Mux (W : Type) : Type := gmap (string * string) (Handler W).

Definition Get {W} (pattern : string) (h : Handler W) (mux : Mux W) : Mux W :=
  <[("GET", pattern) := h]> mux.
End chi.

Definition RegisterStatic {F : FileSystem} {W} (mux : chi.Mux W) : chi.Mux W :=
  let mux := chi.Get "/" documentation mux in
  chi.Get "/static/docs/api/api.yaml" swagger mux.

(** The response a writer of the standard library builds from the calls
    it receives (as [httptest.ResponseRecorder] keeps it): the first
    [WriteHeader] fixes the status and the headers that are sent, a
    [Write] before any [WriteHeader] sends 200 first, the header map
    stays writable but later changes are not sent. The guess of a
    Content-Type that a [Write] makes when none is set and no
    [WriteHeader] came before is left out: [writeFile] never writes
    before a [WriteHeader]. *)
Module httptest.
Record ResponseRecorder : Type := {
  HeaderMap : gmap string string;
  sent : option (Z * gmap string string);
  Body : list Byte.byte
}.

Definition NewRecorder : ResponseRecorder :=
  {| HeaderMap := ∅; sent := None; Body := [] |}.

Definition Header_Set (k v : string) (r : ResponseRecorder)
  : ResponseRecorder :=
  {| HeaderMap := <[k := v]> (HeaderMap r); sent := sent r; Body := Body r |}.

Definition WriteHeader (code : Z) (r : ResponseRecorder) : ResponseRecorder :=
  match sent r with
  | Some _ => r
  | None =>
      {| HeaderMap := HeaderMap r; sent := Some (code, HeaderMap r);
         Body := Body r |}
  end.

Definition Write (b : list Byte.byte) (r : ResponseRecorder)
  : ResponseRecorder :=
  let r := WriteHeader http.StatusOK r in
  {| HeaderMap := HeaderMap r; sent := sent r; Body := (Body r ++ b)%list |}.

Definition recorder : http.ResponseWriter ResponseRecorder :=
  {| http.Header_Set := Header_Set; http.Write := Write;
     http.WriteHeader := WriteHeader |}.

(** A file system held as a table from paths to contents. *)
Definition files (fs : gmap string (list Byte.byte)) : FileSystem :=
  {| os_ReadFile := fun path =>
       match fs !! path with
       | Some b => (b, None)
       | None => ([], Some (errors_New 200 "no such file or directory"))
       end |}.
End httptest.

(** ** Test doubles

    Collaborators as a unit test of the controllers would stub them: a
    DID is kept as its string, the store is the list of the
    (issuer, nonce) pairs saved so far, the entropy source is the list
    of the numbers still to be drawn, and [fail] names the stage whose
    collaborator is made to fail. *)
Module mock.

#[global] Instance Stage_eq_dec : EqDecision Stage.
Proof. solve_decision. Defined.

Definition opaque : Opaque :=
  {| DID := string; CoreClaim := Z; UUID := string; time_Time := Z;
     CredentialBody := unit; ProofBody := unit; IssuerDataBody := unit;
     Store := list (string * Z); Entropy := list Z |}.

Definition failure (st : Stage) : error :=
  errors_New (Pos.of_succ_nat (stage_index st)) "stub failure".

Definition stub {A} (fail : option Stage) (st : Stage) (a : A) : result A :=
  if bool_decide (fail = Some st) then Err (failure st) else Ok a.

Definition json_braces : list Byte.byte := [Byte.x7b; Byte.x7d].

Definition zero_JSONB : pgtype.JSONB :=
  {| pgtype.Bytes := []; pgtype.Status_ := pgtype.Undefined |}.

Definition ErrClaimDoesNotExist : error := errors_New 100 "claim does not exist".

(** [Set] as the database driver has it: bytes are stored as they are,
    a nil source gives the SQL NULL, any other value is stored as its
    JSON encoding. *)
Definition Set_ (fail : option Stage) (src : @SetSrc opaque)
  : result pgtype.JSONB :=
  match src with
  | src_bytes b =>
      stub fail stage_SetSignatureProof
        {| pgtype.Bytes := b; pgtype.Status_ := pgtype.Present |}
  | src_credential _ =>
      stub fail stage_SetData
        {| pgtype.Bytes := json_braces; pgtype.Status_ := pgtype.Present |}
  | src_any any_nil =>
      stub fail stage_SetCredentialStatus
        {| pgtype.Bytes := []; pgtype.Status_ := pgtype.Null |}
  | src_any _ =>
      stub fail stage_SetCredentialStatus
        {| pgtype.Bytes := json_braces; pgtype.Status_ := pgtype.Present |}
  end.

Definition packages (fail : option Stage) : @Packages opaque :=
  {| core_ParseDID := fun s =>
       if String.prefix "did:" s then Ok (s : @DID opaque)
       else Err (failure stage_ParseDID);
     DID_String := fun d => d;
     UUID_String := fun u => u;
     rand_Int64 := fun en =>
       match en with
       | [] => (Err (failure stage_Nonce), [])
       | n :: rest => (Ok n, rest)
       end;
     ports_NewClaimRequest :=
       fun schema did url subject expiration typ version subjectPos mtPos =>
         {| ports.Schema := schema; ports.DID_ := did;
            ports.CredentialSchema := url;
            ports.CredentialSubject := subject;
            ports.Expiration := expiration; ports.Type_ := typ;
            ports.Version := default 0 version;
            ports.SubjectPos := default "" subjectPos;
            ports.MerklizedRootPosition := default "" mtPos |};
     common_DefineMerklizedRootPosition := fun _ pos => pos;
     domain_FromClaimer := fun c url typ =>
       stub fail stage_FromClaimer
         (@domain.Build_Claim opaque "" None "" url typ c
            zero_JSONB zero_JSONB zero_JSONB c);
     json_Marshal := fun _ => stub fail stage_Marshal json_braces;
     JSONB_Set := Set_ fail;
     repositories_ErrClaimDoesNotExist := ErrClaimDoesNotExist |}.

Definition authClaim : @domain.Claim opaque :=
  @domain.Build_Claim opaque "auth" None "" "" "" 0
    zero_JSONB zero_JSONB zero_JSONB 0.

Definition with_ID (id : string) (c : @domain.Claim opaque)
  : @domain.Claim opaque :=
  @domain.Build_Claim opaque id (domain.Identifier c) (domain.Issuer c)
    (domain.SchemaURL c) (domain.SchemaType c) (domain.RevNonce c)
    (domain.Data c) (domain.SignatureProof c) (domain.CredentialStatus c)
    (domain.CoreClaim_ c).

Definition identity : @domain.Identity opaque :=
  @domain.Build_Identity opaque "did:iden3:issuer" false ""
    (@domain.Build_IdentityState opaque None None None 0 0 None None None
       None "created" None).

Definition proof : @verifiable.BJJSignatureProof2021 opaque :=
  @verifiable.Build_BJJSignatureProof2021 opaque
    (@verifiable.Build_IssuerData_t opaque any_nil tt) tt.

(** A store that refuses to revoke what it does not hold. The error it
    reports wraps the sentinel of the repositories. *)
Definition Revoke (fail : option Stage) (id : string) (nonce : Z)
    (description : string) (st : list (string * Z))
  : option error * list (string * Z) :=
  if bool_decide (fail = Some stage_other) then (Some (failure stage_other), st)
  else if bool_decide ((id, nonce) ∈ st) then (None, st)
  else (Some (fmt_Errorf_w 101 "revoke: claim does not exist"
                ErrClaimDoesNotExist), st).

(** [metadata] is the metadata of the schema every URL resolves to (nil
    for a document without any) and [status] the status descriptor the
    credential builder produces. *)
Definition server_with (fail : option Stage)
    (metadata : option jsonSuite.SchemaMetadata) (status : any)
  : @Server opaque :=
  {| cfg := {| config.ServerUrl := "http://localhost";
               config.ServerPort := 3001 |};
     identityService :=
       {| ports.Create := fun _ st =>
            (stub fail stage_other identity, st);
          ports.SignClaimEntry := fun _ _ =>
            stub fail stage_Sign proof |};
     claimService :=
       {| ports.CreateVC := fun _ _ =>
            stub fail stage_CreateVC
              (@verifiable.Build_W3CCredential opaque status tt);
          ports.GetAuthClaim := fun _ _ => stub fail stage_GetAuthClaim authClaim;
          ports.GetRevocationSource := fun issuer nonce =>
            any_object [("id", any_string issuer);
                        ("revocationNonce", any_number nonce)];
          ports.Save := fun claim st =>
            if bool_decide (fail = Some stage_Save)
            then (Err (failure stage_Save), st)
            else (Ok (with_ID "claim-1" claim),
                  (domain.Issuer claim, domain.RevNonce claim) :: st);
          ports.Revoke := Revoke fail |};
     schemaService :=
       {| ports.LoadSchema := fun _ =>
            stub fail stage_LoadSchema {| jsonSuite.Metadata := metadata |};
          ports.Process := fun _ _ _ opts =>
            stub fail stage_Process
              (processor.RevNonce opts : @CoreClaim opaque) |} |}.

(** The server whose schemas carry the URI table [uris]. *)
Definition server (fail : option Stage) (uris : gmap string any)
    (status : any) : @Server opaque :=
  server_with fail
    (Some {| jsonSuite.Uris := uris; jsonSuite.Serialization := any_nil |})
    status.

Definition world (st : list (string * Z)) (en : list Z) : @World opaque :=
  @Build_World opaque st en [] [].

Definition uris_x : gmap string any :=
  {[ "jsonLdContext" := any_string "https://x/ctx" ]}.

Definition status_x : any :=
  any_object [("type", any_string "SparseMerkleTreeProof")].

Definition request (identifier : string) : CreateClaimRequestObject :=
  {| req_Identifier := identifier;
     req_Body :=
       {| body_CredentialSchema := "https://x/schema.json";
          body_CredentialSubject := {[ "age" := any_number 30 ]};
          body_Expiration := None;
          body_Type := "Age";
          body_Version := None;
          body_SubjectPosition := None;
          body_MerklizedRootPosition := None |} |}.

(** The issuance controller on the stubs, for a request with the given
    identifier. *)
Definition issue (fail : option Stage) (uris : gmap string any)
    (status : any) (identifier : string)
  : @M opaque (Outcome CreateClaimResponseObject) :=
  @CreateClaim opaque (packages fail) (server fail uris status)
    (request identifier).

(** The same on a server whose schemas resolve without metadata. *)
Definition issue_bare (fail : option Stage) (status : any)
    (identifier : string)
  : @M opaque (Outcome CreateClaimResponseObject) :=
  @CreateClaim opaque (packages fail) (server_with fail None status)
    (request identifier).

Definition revoke (fail : option Stage) (identifier : string) (nonce : Z)
  : @M opaque (Returned RevokeClaimResponseObject) :=
  @RevokeClaim opaque (packages fail) (server fail uris_x status_x)
    {| revoke_Identifier := identifier; revoke_Nonce := nonce |}.

Definition create (fail : option Stage)
  : @M opaque (Returned (@CreateIdentityResponseObject opaque)) :=
  @CreateIdentity opaque (server fail uris_x status_x)
    Build_CreateIdentityRequestObject.

End mock.

(** ** Running a controller step by step *)

Section steps.
Context {O : Opaque}.

Lemma check_pure {A R} c (r : result A) (h : error -> M R) k w :
  check (call_pure c r) h k w =
  match r with
  | Ok a => k a (emit c None w)
  | Err e => h e (emit c (Some e) w)
  end.
Proof. unfold check, call_pure. by destruct r. Qed.

Lemma check_read {A R} c (f : Store -> result A) (h : error -> M R) k w :
  check (call_read c f) h k w =
  match f (store w) with
  | Ok a => k a (emit c None w)
  | Err e => h e (emit c (Some e) w)
  end.
Proof. unfold check, call_read. by destruct (f (store w)). Qed.

Lemma check_write {A R} c (f : Store -> result A * Store)
    (h : error -> M R) k w :
  check (call_write c f) h k w =
  match f (store w) with
  | (Ok a, st) => k a (emit c None (with_store st w))
  | (Err e, st) => h e (emit c (Some e) (with_store st w))
  end.
Proof. unfold check, call_write. by destruct (f (store w)) as [[]]. Qed.

Lemma check_entropy {A R} c (f : Entropy -> result A * Entropy)
    (h : error -> M R) k w :
  check (call_entropy c f) h k w =
  match f (entropy w) with
  | (Ok a, en) => k a (emit c None (with_entropy en w))
  | (Err e, en) => h e (emit c (Some e) (with_entropy en w))
  end.
Proof. unfold check, call_entropy. by destruct (f (entropy w)) as [[]]. Qed.

Lemma seq_total {A R} c (a : A) (k : A -> M R) w :
  seq (call_total c a) k w = k a (emit c None w).
Proof. reflexivity. Qed.

Lemma assert_string_ok (m : gmap string any) k s :
  assert_string (map_index m k) = (s, true) -> m !! k = Some (any_string s).
Proof.
  unfold map_index. destruct (m !! k) as [[]|]; simpl; congruence.
Qed.

End steps.

Ltac pipeline_step :=
  first
    [ rewrite check_pure
    | rewrite check_read
    | rewrite check_write
    | rewrite check_entropy
    | rewrite seq_total ];
  cbv beta zeta.

Ltac head_case :=
  lazymatch goal with
  | |- ?lhs = _ -> _ =>
      lazymatch lhs with
      | context [negb false] => cbv beta iota zeta delta [negb]
      | match ?x with _ => _ end =>
          first [ is_var x; destruct x | destruct x eqn:? ];
          cbv beta iota zeta
      | (match ?x with _ => _ end) _ =>
          first [ is_var x; destruct x | destruct x eqn:? ];
          cbv beta iota zeta
      end
  end.

Ltac normalize_world :=
  cbn [calls store entropy logged emit with_store with_entropy fst snd];
  rewrite <- ?app_assoc; cbn [app];
  rewrite ?drop_app_length, ?drop_all.

Ltac normalize_hyps :=
  cbn [calls store entropy logged emit with_store with_entropy fst snd] in *.

(** Runs the controller on the left of [run = (res, w') -> G] down to
    each of its exits, and leaves [G] there with the response, the final
    world and the calls written out. *)
Ltac run_to_exits :=
  repeat first [ pipeline_step | head_case ];
  unfold return400, return500, panic, seq, log_Error, log_Warn, Return;
  cbv beta iota zeta;
  intros [= <- <-];
  normalize_world.

Ltac start_run c :=
  unfold trace; unfold response, final;
  let res := fresh "res" in
  let w' := fresh "w'" in
  let Hrun := fresh "Hrun" in
  destruct c as [res w'] eqn:Hrun; cbn [fst snd];
  revert Hrun.

Ltac split_elem :=
  repeat match goal with
    | H : _ ∈ _ :: _ |- _ =>
        let H' := fresh in
        apply elem_of_cons in H as [H'|H]; [ simplify_eq | ]
    | H : _ ∈ [] |- _ => by apply elem_of_nil in H
    end.

Ltac run_CreateClaim s req w :=
  start_run (CreateClaim s req w); unfold CreateClaim; cbv beta zeta;
  run_to_exits.

(** ** Properties *)


(** C2. Whatever call of the pipeline comes back with an error, the
    response of [CreateClaim] is the fault the specification assigns to
    that stage, carrying the message of that error: 400 for schema
    resolution and for core-claim encoding ([Process]), 500 for the
    credential build, [FromClaimer], the auth-claim fetch, signing,
    marshalling, the three [Set] calls and [Save]. *)
Theorem CreateClaim_fault_classes {O : Opaque} {P : Packages}
    (s : Server) (req : CreateClaimRequestObject) (w : World)
    (ev : Event) (e : error) :
  ev ∈ trace (CreateClaim s req) w ->
  ev_err ev = Some e ->
  response (CreateClaim s req) w =
    returns (fault_response (spec_fault_class (stage_of (ev_call ev))) e).
Proof.
  run_CreateClaim s req w.
  all: intros Hin Herr; split_elem; try discriminate Herr.
  all: by injection Herr as ->.
Qed.

(** C3 (as amended). When the identifier parses and the schema resolves
    to one whose metadata has no string under "jsonLdContext", no call of
    the run is the signing call or a later stage and the store is left
    as it was. If the nonce draw or the credential build fails, the
    response is the 500 of that failure; if both succeed and the schema
    carries metadata, the response is 400 "invalid jsonLdContext". *)
Theorem CreateClaim_missing_jsonLdContext {O : Opaque} {P : Packages}
    (s : Server) (req : CreateClaimRequestObject) (w : World)
    (did : DID) (schema : jsonSuite.Schema) :
  req_Identifier req <> "" ->
  core_ParseDID (req_Identifier req) = Ok did ->
  ports.LoadSchema (schemaService s) (body_CredentialSchema (req_Body req))
    = Ok schema ->
  (forall metadata,
     jsonSuite.Metadata schema = Some metadata ->
     (assert_string
        (map_index (jsonSuite.Uris metadata) "jsonLdContext")).2 = false) ->
  let tr := trace (CreateClaim s req) w in
  (forall ev, ev ∈ tr ->
     (stage_index (stage_of (ev_call ev)) < stage_index stage_Sign)%nat)
  /\ (forallb succeeded tr = true ->
      is_Some (jsonSuite.Metadata schema) ->
      response (CreateClaim s req) w =
        returns
          (Some (CreateClaim400JSONResponse
                   {| Message400 := "invalid jsonLdContext" |}), None))
  /\ (forall ev e,
        ev ∈ tr -> ev_err ev = Some e ->
        (stage_of (ev_call ev) = stage_Nonce
         \/ stage_of (ev_call ev) = stage_CreateVC)
        /\ response (CreateClaim s req) w =
             returns
               (Some (CreateClaim500JSONResponse
                        {| Message500 := Error e |}), None))
  /\ store (final (CreateClaim s req) w) = store w.
Proof.
  intros Hid Hparse Hload Hctx.
  start_run (CreateClaim s req w); unfold CreateClaim; cbv beta zeta.
  rewrite bool_decide_eq_false_2 by done.
  rewrite check_pure, Hparse. cbv beta iota zeta.
  rewrite check_pure, Hload. cbv beta iota zeta.
  destruct (jsonSuite.Metadata schema) as [metadata|].
  - specialize (Hctx metadata eq_refl).
    destruct (assert_string _) as [ctx ok]. cbn [snd] in Hctx. subst ok.
    run_to_exits.
    all: split; [ intros ev Hin; split_elem; cbn; lia | ].
    all: split; [ cbn [forallb succeeded ev_err andb]; try done | ].
    all: split; [ | done ].
    all: intros ev err Hin Herr; split_elem; try discriminate Herr.
    all: injection Herr as ->; cbn; eauto.
  - run_to_exits.
    all: split; [ intros ev Hin; split_elem; cbn; lia | ].
    all: split;
      [ cbn [forallb succeeded ev_err andb]; try done;
        intros _ [? [=]]
      | ].
    all: split; [ | done ].
    all: intros ev err Hin Herr; split_elem; try discriminate Herr.
    all: injection Herr as ->; cbn; eauto.
Qed.

(** C4. When the draw of the nonce fails, [CreateClaim] answers 500 with
    the message of that error, no claim is handed to [Save], no call of
    the run is [Save], and the store is left as it was. *)
Theorem CreateClaim_nonce_failure {O : Opaque} {P : Packages}
    (s : Server) (req : CreateClaimRequestObject) (w : World) (e : error) :
  {| ev_call := call_rand_Int64; ev_err := Some e |}
    ∈ trace (CreateClaim s req) w ->
  response (CreateClaim s req) w =
    returns (Some (CreateClaim500JSONResponse {| Message500 := Error e |}), None)
  /\ saved_claims (trace (CreateClaim s req) w) = []
  /\ (forall ev, ev ∈ trace (CreateClaim s req) w ->
        stage_of (ev_call ev) <> stage_Save)
  /\ store (final (CreateClaim s req) w) = store w.
Proof.
  run_CreateClaim s req w.
  all: intros Hin; split_elem.
  repeat split. intros ev Hin. by split_elem.
Qed.


(** C6. [RevokeClaim] answers 404 "the claim does not exist" when the
    error of [Revoke] is the claim-does-not-exist error of the
    repositories (in the sense of [errors.Is]) and only then, 500 with
    the message of the error for any other error, and 202 with status
    "pending" when [Revoke] reports no error. The store is left as
    [Revoke] left it. *)
Theorem RevokeClaim_responses {O : Opaque} {P : Packages}
    (s : Server) (req : RevokeClaimRequestObject) (w : World) :
  let outcome :=
    ports.Revoke (claimService s) (revoke_Identifier req)
      (uint64 (revoke_Nonce req)) "" (store w) in
  (forall err,
     outcome.1 = Some err ->
     errors_Is err repositories_ErrClaimDoesNotExist = true ->
     response (RevokeClaim s req) w =
       (Some (RevokeClaim404JSONResponse
                {| Message404 := "the claim does not exist" |}), None))
  /\ (forall err,
        outcome.1 = Some err ->
        errors_Is err repositories_ErrClaimDoesNotExist = false ->
        response (RevokeClaim s req) w =
          (Some (RevokeClaim500JSONResponse {| Message500 := Error err |}),
           None))
  /\ (outcome.1 = None ->
      response (RevokeClaim s req) w =
        (Some (RevokeClaim202JSONResponse "pending"), None))
  /\ (forall r,
        response (RevokeClaim s req) w = (Some r, None) ->
        RevokeClaim_variant r = NotFound ->
        exists err,
          outcome.1 = Some err
          /\ errors_Is err repositories_ErrClaimDoesNotExist = true)
  /\ store (final (RevokeClaim s req) w) = outcome.2.
Proof.
  unfold response, final, RevokeClaim, seq, call_effect, Return.
  destruct (ports.Revoke _ _ _ _ _) as [[err|] st]; cbn.
  - destruct (errors_Is err _) eqn:His; cbn.
    + repeat split; try congruence. intros r _ _. eauto.
    + repeat split; try congruence. intros r [= <-]. discriminate.
  - repeat split; try congruence. intros r [= <-]. discriminate.
Qed.

(** C7 (as amended). When [Create] fails, [CreateIdentity] returns no
    response object and hands back the error of the identity service as
    it is. [RevokeClaim] always returns a response object, one of its
    typed variants, with a nil error; so does [CreateClaim] whenever it
    returns, and it returns whenever the schemas that resolve carry
    metadata. *)
Theorem responses_total {O : Opaque} {P : Packages} (s : Server) (w : World) :
  (forall rq e st,
     ports.Create (identityService s)
       (Sprintf_s_colon_d (config.ServerUrl (cfg s))
          (config.ServerPort (cfg s)))
       (store w) = (Err e, st) ->
     response (CreateIdentity s rq) w = (None, Some e))
  /\ (forall req ret,
        response (CreateClaim s req) w = returns ret ->
        exists r, ret = (Some r, None))
  /\ (forall req,
        (forall schema,
           ports.LoadSchema (schemaService s)
             (body_CredentialSchema (req_Body req)) = Ok schema ->
           is_Some (jsonSuite.Metadata schema)) ->
        exists r, response (CreateClaim s req) w = returns (Some r, None))
  /\ (forall req,
        exists r, response (RevokeClaim s req) w = (Some r, None)).
Proof.
  split; [ | split; [ | split ] ].
  - intros rq e st Hcreate. unfold response, CreateIdentity. cbv zeta.
    rewrite check_write, Hcreate. reflexivity.
  - intros req. run_CreateClaim s req w.
    all: intros ret Hret;
      first [ discriminate Hret | injection Hret as <-; eauto ].
  - intros req. run_CreateClaim s req w.
    all: intros Hmeta; eauto.
    destruct (Hmeta _ eq_refl) as [metadata Hsome]. congruence.
  - intros req. unfold response, RevokeClaim, seq, call_effect, Return.
    destruct (ports.Revoke _ _ _ _ _) as [[err|] st]; cbn; eauto.
    destruct (errors_Is _ _); cbn; eauto.
Qed.

(** C8. With an empty identifier [CreateClaim] answers 400 "Invalid
    request identifier", makes no call and leaves the world as it was.
    With a non-empty identifier that [ParseDID] rejects it answers 400
    with the message of the parser; the only call is [ParseDID], so the
    schema is not resolved. *)
Theorem CreateClaim_identifier_checks {O : Opaque} {P : Packages}
    (s : Server) (req : CreateClaimRequestObject) (w : World) :
  (req_Identifier req = "" ->
     response (CreateClaim s req) w =
       returns (Some (CreateClaim400JSONResponse
                {| Message400 := "Invalid request identifier" |}), None)
     /\ trace (CreateClaim s req) w = []
     /\ final (CreateClaim s req) w = w)
  /\ (forall e,
        req_Identifier req <> "" ->
        core_ParseDID (req_Identifier req) = Err e ->
        response (CreateClaim s req) w =
          returns (Some (CreateClaim400JSONResponse {| Message400 := Error e |}), None)
        /\ trace (CreateClaim s req) w =
             [ {| ev_call := call_ParseDID (req_Identifier req);
                  ev_err := Some e |} ]
        /\ (forall ev, ev ∈ trace (CreateClaim s req) w ->
              stage_of (ev_call ev) <> stage_LoadSchema)
        /\ store (final (CreateClaim s req) w) = store w).
Proof.
  split.
  - intros Hid. unfold response, final, trace, CreateClaim. cbv beta zeta.
    rewrite bool_decide_eq_true_2 by done.
    unfold return400, Return. cbn [fst snd]. by rewrite drop_all.
  - intros e Hid Hparse. unfold trace. unfold response, final, CreateClaim.
    cbv beta zeta. rewrite bool_decide_eq_false_2 by done.
    rewrite check_pure, Hparse. unfold return400, Return.
    cbn [fst snd calls store emit]. rewrite drop_app_length.
    repeat split. intros ev Hin. by split_elem.
Qed.

(** C9. When [CreateClaim] answers 201, the schema resolved and its
    metadata has a string [ctx] under "jsonLdContext"; the credential
    type given to [Process] and to [FromClaimer] is [ctx], "#" and the
    requested type, and, [FromClaimer] recording the type it is given,
    this is the type of the claim handed to [Save]. For "https://x/ctx"
    and "Age" the credential type is "https://x/ctx#Age". *)
Theorem CreateClaim_credential_type {O : Opaque} {P : Packages}
    (s : Server) (req : CreateClaimRequestObject) (w : World) :
  (forall id,
     response (CreateClaim s req) w =
       returns (Some (CreateClaim201JSONResponse id), None) ->
     exists schema metadata ctx claim,
       ports.LoadSchema (schemaService s)
         (body_CredentialSchema (req_Body req)) = Ok schema
       /\ jsonSuite.Metadata schema = Some metadata
       /\ jsonSuite.Uris metadata !! "jsonLdContext" = Some (any_string ctx)
       /\ (exists url vc opts,
             {| ev_call :=
                  call_Process url (ctx +:+ "#" +:+ body_Type (req_Body req))
                    vc opts;
                ev_err := None |} ∈ trace (CreateClaim s req) w)
       /\ (exists c url,
             {| ev_call :=
                  call_FromClaimer c url
                    (ctx +:+ "#" +:+ body_Type (req_Body req));
                ev_err := None |} ∈ trace (CreateClaim s req) w)
       /\ saved_claims (trace (CreateClaim s req) w) = [claim]
       /\ ((forall c url typ cl,
              domain_FromClaimer c url typ = Ok cl ->
              domain.SchemaType cl = typ) ->
           domain.SchemaType claim =
             ctx +:+ "#" +:+ body_Type (req_Body req)))
  /\ Sprintf_s_hash_s "https://x/ctx" "Age" = "https://x/ctx#Age".
Proof.
  split; [ | reflexivity ].
  run_CreateClaim s req w.
  all: intros id Hres; try discriminate Hres.
  match goal with
  | H : negb ?b = false |- _ => apply negb_false_iff in H; subst b
  end.
  match goal with
  | H : assert_string _ = (_, _) |- _ => apply assert_string_ok in H
  end.
  do 4 eexists. split; [ reflexivity | ]. split; [ eassumption | ].
  split; [ eassumption | ].
  split; [ do 3 eexists; unfold Sprintf_s_hash_s; repeat constructor | ].
  split; [ do 2 eexists; unfold Sprintf_s_hash_s; repeat constructor | ].
  split; [ reflexivity | ].
  intros Hcontract. cbn.
  eapply Hcontract. eassumption.
Qed.

(** C10. [Health] returns the payload with [Cache] true and [Db] false
    and a nil error, for every server, request and world, and leaves the
    world as it was. *)
Theorem Health_constant {O : Opaque} (s : Server) (rq : HealthRequestObject)
    (w : World) :
  Health s rq w = ((Some {| Cache := true; Db := false |}, None), w).
Proof. reflexivity. Qed.




Lemma CreateClaim_fault_classes_witness :
  response (mock.issue (Some stage_Process) mock.uris_x mock.status_x
              "did:iden3:a") (mock.world [] [42]) =
    returns
      (Some (CreateClaim400JSONResponse {| Message400 := "stub failure" |}),
       None)
  /\ response (mock.issue (Some stage_Sign) mock.uris_x mock.status_x
                 "did:iden3:a") (mock.world [] [42]) =
       returns
         (Some (CreateClaim500JSONResponse {| Message500 := "stub failure" |}),
          None).
Proof.
  split.
  - eapply
      (@CreateClaim_fault_classes mock.opaque
         (mock.packages (Some stage_Process))
         (mock.server (Some stage_Process) mock.uris_x mock.status_x)
         (mock.request "did:iden3:a") (mock.world [] [42])
         {| ev_call :=
              call_Process "https://x/schema.json" "https://x/ctx#Age"
                (@verifiable.Build_W3CCredential mock.opaque mock.status_x tt)
                {| processor.RevNonce := 42;
                   processor.MerklizedRootPosition := "";
                   processor.Version := 0;
                   processor.SubjectPosition := "";
                   processor.Updatable := false |};
            ev_err := Some (mock.failure stage_Process) |}
         (mock.failure stage_Process)).
    + vm_compute. repeat constructor.
    + reflexivity.
  - eapply
      (@CreateClaim_fault_classes mock.opaque
         (mock.packages (Some stage_Sign))
         (mock.server (Some stage_Sign) mock.uris_x mock.status_x)
         (mock.request "did:iden3:a") (mock.world [] [42])
         {| ev_call := @call_SignClaimEntry mock.opaque mock.authClaim 42;
            ev_err := Some (mock.failure stage_Sign) |}
         (mock.failure stage_Sign)).
    + vm_compute. repeat constructor.
    + reflexivity.
Defined.

Lemma CreateClaim_missing_jsonLdContext_witness :
  response (mock.issue None ∅ mock.status_x "did:iden3:a")
    (mock.world [] [42]) =
    returns
      (Some (CreateClaim400JSONResponse
               {| Message400 := "invalid jsonLdContext" |}), None)
  /\ store (final (mock.issue None ∅ mock.status_x "did:iden3:a")
              (mock.world [] [42])) = [].
Proof.
  destruct
    (@CreateClaim_missing_jsonLdContext mock.opaque (mock.packages None)
       (mock.server None ∅ mock.status_x)
       (mock.request "did:iden3:a") (mock.world [] [42])
       "did:iden3:a"
       {| jsonSuite.Metadata :=
            Some {| jsonSuite.Uris := ∅;
                    jsonSuite.Serialization := any_nil |} |})
    as (_ & H400 & _ & Hstore).
  - discriminate.
  - reflexivity.
  - reflexivity.
  - intros metadata [= <-]. reflexivity.
  - split; [ apply H400; [ reflexivity | eexists; reflexivity ]
           | exact Hstore ].
Defined.

Lemma CreateClaim_missing_jsonLdContext_counterexample :
  (req_Identifier (mock.request "did:iden3:a") <> ""
   /\ @core_ParseDID mock.opaque (mock.packages (Some stage_CreateVC))
        "did:iden3:a" = Ok ("did:iden3:a" : @DID mock.opaque)
   /\ ports.LoadSchema
        (schemaService (mock.server (Some stage_CreateVC) ∅ mock.status_x))
        "https://x/schema.json" =
        Ok {| jsonSuite.Metadata :=
                Some {| jsonSuite.Uris := ∅;
                        jsonSuite.Serialization := any_nil |} |}
   /\ assert_string (map_index ∅ "jsonLdContext") = ("", false)
   /\ response
        (mock.issue (Some stage_CreateVC) ∅ mock.status_x "did:iden3:a")
        (mock.world [] [42]) =
        returns
          (Some (CreateClaim500JSONResponse
                   {| Message500 := "stub failure" |}), None)
   /\ response
        (mock.issue (Some stage_CreateVC) ∅ mock.status_x "did:iden3:a")
        (mock.world [] [42]) <>
        returns
          (Some (CreateClaim400JSONResponse
                   {| Message400 := "invalid jsonLdContext" |}), None))
  /\ (ports.LoadSchema
        (schemaService (mock.server_with None None mock.status_x))
        "https://x/schema.json" = Ok {| jsonSuite.Metadata := None |}
      /\ response (mock.issue_bare None mock.status_x "did:iden3:a")
           (mock.world [] [42]) = panics nil_pointer_dereference).
Proof.
  split.
  - split; [ discriminate | ].
    repeat split; try reflexivity. discriminate.
  - split; reflexivity.
Qed.

Lemma CreateClaim_nonce_failure_witness :
  {| ev_call := @call_rand_Int64 mock.opaque;
     ev_err := Some (mock.failure stage_Nonce) |}
    ∈ trace (mock.issue None mock.uris_x mock.status_x "did:iden3:a")
        (mock.world [] [])
  /\ response (mock.issue None mock.uris_x mock.status_x "did:iden3:a")
       (mock.world [] []) =
       returns (Some (CreateClaim500JSONResponse {| Message500 := "stub failure" |}),
        None)
  /\ store (final (mock.issue None mock.uris_x mock.status_x "did:iden3:a")
              (mock.world [] [])) = [].
Proof.
  assert
    ({| ev_call := @call_rand_Int64 mock.opaque;
        ev_err := Some (mock.failure stage_Nonce) |}
       ∈ trace (mock.issue None mock.uris_x mock.status_x "did:iden3:a")
           (mock.world [] [])) as Hin.
  { vm_compute. repeat constructor. }
  split; [ exact Hin | ].
  destruct
    (@CreateClaim_nonce_failure mock.opaque (mock.packages None)
       (mock.server None mock.uris_x mock.status_x)
       (mock.request "did:iden3:a") (mock.world [] [])
       (mock.failure stage_Nonce) Hin)
    as (Hres & _ & _ & Hstore).
  split; [ exact Hres | exact Hstore ].
Defined.


Lemma RevokeClaim_responses_witness :
  response (mock.revoke None "did:iden3:a" 42) (mock.world [] []) =
    (Some (RevokeClaim404JSONResponse
             {| Message404 := "the claim does not exist" |}), None)
  /\ response (mock.revoke (Some stage_other) "did:iden3:a" 42)
       (mock.world [] []) =
       (Some (RevokeClaim500JSONResponse {| Message500 := "stub failure" |}),
        None)
  /\ response (mock.revoke None "did:iden3:a" (-1))
       (mock.world [("did:iden3:a", 2 ^ 64 - 1)] []) =
       (Some (RevokeClaim202JSONResponse "pending"), None).
Proof.
  split; [ | split ].
  - destruct
      (@RevokeClaim_responses mock.opaque (mock.packages None)
         (mock.server None mock.uris_x mock.status_x)
         {| revoke_Identifier := "did:iden3:a"; revoke_Nonce := 42 |}
         (mock.world [] []))
      as (H404 & _).
    apply (H404 (fmt_Errorf_w 101 "revoke: claim does not exist"
                   mock.ErrClaimDoesNotExist)); reflexivity.
  - destruct
      (@RevokeClaim_responses mock.opaque (mock.packages (Some stage_other))
         (mock.server (Some stage_other) mock.uris_x mock.status_x)
         {| revoke_Identifier := "did:iden3:a"; revoke_Nonce := 42 |}
         (mock.world [] []))
      as (_ & H500 & _).
    apply (H500 (mock.failure stage_other)); reflexivity.
  - destruct
      (@RevokeClaim_responses mock.opaque (mock.packages None)
         (mock.server None mock.uris_x mock.status_x)
         {| revoke_Identifier := "did:iden3:a"; revoke_Nonce := -1 |}
         (mock.world [("did:iden3:a", 2 ^ 64 - 1)] []))
      as (_ & _ & H202 & _).
    apply H202. reflexivity.
Defined.

Lemma responses_total_witness :
  response (mock.create (Some stage_other)) (mock.world [] []) =
    (None, Some (mock.failure stage_other))
  /\ exists r,
       response (mock.issue None ∅ mock.status_x "did:iden3:a")
         (mock.world [] [42]) = returns (Some r, None).
Proof.
  split.
  - destruct
      (@responses_total mock.opaque (mock.packages (Some stage_other))
         (mock.server (Some stage_other) mock.uris_x mock.status_x)
         (mock.world [] []))
      as (Hcreate & _).
    eapply Hcreate. reflexivity.
  - destruct
      (@responses_total mock.opaque (mock.packages None)
         (mock.server None ∅ mock.status_x) (mock.world [] [42]))
      as (_ & _ & Hclaim & _).
    apply (Hclaim (mock.request "did:iden3:a")).
    intros schema [= <-]. eexists. reflexivity.
Defined.

Lemma responses_total_counterexample :
  (ports.Create
     (identityService (mock.server (Some stage_other) mock.uris_x mock.status_x))
     "http://localhost:3001" []).1 = Err (mock.failure stage_other)
  /\ (response (mock.create (Some stage_other)) (mock.world [] [])).1 = None
  /\ (~ exists r,
          (response (mock.create (Some stage_other)) (mock.world [] [])).1
            = Some r
          /\ CreateIdentity_variant r = ServerFault)
  /\ response (mock.issue_bare None mock.status_x "did:iden3:a")
       (mock.world [] [42]) = panics nil_pointer_dereference.
Proof.
  split; [ reflexivity | ]. split; [ reflexivity | ].
  split; [ | reflexivity ].
  intros (r & Hr & _). discriminate Hr.
Qed.

Lemma CreateClaim_identifier_checks_witness :
  (response (mock.issue None mock.uris_x mock.status_x "")
     (mock.world [] [42]) =
     returns (Some (CreateClaim400JSONResponse
              {| Message400 := "Invalid request identifier" |}), None)
   /\ trace (mock.issue None mock.uris_x mock.status_x "")
        (mock.world [] [42]) = [])
  /\ response (mock.issue None mock.uris_x mock.status_x "bogus")
       (mock.world [] [42]) =
       returns (Some (CreateClaim400JSONResponse {| Message400 := "stub failure" |}),
        None)
  /\ trace (mock.issue None mock.uris_x mock.status_x "bogus")
       (mock.world [] [42]) =
       [ {| ev_call := @call_ParseDID mock.opaque "bogus";
            ev_err := Some (mock.failure stage_ParseDID) |} ].
Proof.
  split.
  - destruct
      (@CreateClaim_identifier_checks mock.opaque (mock.packages None)
         (mock.server None mock.uris_x mock.status_x)
         (mock.request "") (mock.world [] [42]))
      as (Hempty & _).
    destruct (Hempty eq_refl) as (Hres & Htr & _).
    split; [ exact Hres | exact Htr ].
  - destruct
      (@CreateClaim_identifier_checks mock.opaque (mock.packages None)
         (mock.server None mock.uris_x mock.status_x)
         (mock.request "bogus") (mock.world [] [42]))
      as (_ & Hbad).
    destruct (Hbad (mock.failure stage_ParseDID)) as (Hres & Htr & _).
    + discriminate.
    + reflexivity.
    + split; [ exact Hres | exact Htr ].
Defined.

Lemma CreateClaim_credential_type_witness :
  exists claim,
    saved_claims
      (trace (mock.issue None mock.uris_x mock.status_x "did:iden3:a")
         (mock.world [] [42])) = [claim]
    /\ domain.SchemaType claim = "https://x/ctx#Age".
Proof.
  destruct
    (@CreateClaim_credential_type mock.opaque (mock.packages None)
       (mock.server None mock.uris_x mock.status_x)
       (mock.request "did:iden3:a") (mock.world [] [42]))
    as [Hok _].
  destruct (Hok "claim-1" eq_refl)
    as (schema & metadata & ctx & claim & Hload & Hmeta & Hctx & _ & _
        & Hsaved & Htype).
  injection Hload as <-. injection Hmeta as <-.
  vm_compute in Hctx. injection Hctx as <-.
  exists claim. split; [ exact Hsaved | ].
  apply Htype. intros c url typ cl Hfrom.
  injection Hfrom as <-. reflexivity.
Defined.

(** ** Further properties of the controllers *)

(** X1. The calls of a run of [CreateClaim] follow the order of the
    pipeline: their stages are an initial part of [pipeline], so no
    collaborator is called twice and none is called out of turn. *)
Theorem CreateClaim_call_order {O : Opaque} {P : Packages}
    (s : Server) (req : CreateClaimRequestObject) (w : World) :
  stages (trace (CreateClaim s req) w) `prefix_of` pipeline
  /\ NoDup (stages (trace (CreateClaim s req) w)).
Proof.
  assert (NoDup pipeline) as Hnodup.
  { unfold pipeline.
    repeat (apply NoDup_cons_2;
            [ rewrite ?elem_of_cons, elem_of_nil; intuition discriminate | ]).
    apply NoDup_nil_2. }
  assert (stages (trace (CreateClaim s req) w) `prefix_of` pipeline) as Hpre.
  { run_CreateClaim s req w. all: cbn; eexists; reflexivity. }
  split; [ exact Hpre | ].
  destruct Hpre as [k Hk]. rewrite Hk in Hnodup.
  by apply NoDup_app in Hnodup as (? & _).
Qed.

(** X2. [CreateClaim] stops at the first failure: every call of a run
    but the last one came back without an error. *)
Theorem CreateClaim_stops_at_first_failure {O : Opaque} {P : Packages}
    (s : Server) (req : CreateClaimRequestObject) (w : World) :
  let tr := trace (CreateClaim s req) w in
  forallb succeeded (take (pred (length tr)) tr) = true.
Proof.
  run_CreateClaim s req w. all: reflexivity.
Qed.

(** X3. [CreateClaim] answers 201 exactly when it went through the whole
    pipeline and every call succeeded. *)
Theorem CreateClaim_success_iff {O : Opaque} {P : Packages}
    (s : Server) (req : CreateClaimRequestObject) (w : World) :
  (exists id,
     response (CreateClaim s req) w =
       returns (Some (CreateClaim201JSONResponse id), None))
  <-> stages (trace (CreateClaim s req) w) = pipeline
      /\ forallb succeeded (trace (CreateClaim s req) w) = true.
Proof.
  run_CreateClaim s req w.
  all: cbn; split;
    [ intros [id Hid]; try discriminate Hid; by split
    | intros [Hst Hok]; try discriminate Hst; try discriminate Hok;
      eauto ].
Qed.

(** X4. Whenever [Process] is called, its options carry the nonce that
    [rand.Int64] drew from the entropy the run started with, which is
    also the nonce the credential was built with, the merklized root
    position computed from the schema metadata and the request, the
    version and subject position of the claim request, and
    [Updatable] false. *)
Theorem CreateClaim_encoder_options {O : Opaque} {P : Packages}
    (s : Server) (req : CreateClaimRequestObject) (w : World)
    (url credentialType : string) (vc : verifiable.W3CCredential)
    (opts : processor.CoreClaimOptions) (err : option error) :
  {| ev_call := call_Process url credentialType vc opts; ev_err := err |}
    ∈ trace (CreateClaim s req) w ->
  exists did schema nonce en,
    core_ParseDID (req_Identifier req) = Ok did
    /\ ports.LoadSchema (schemaService s)
         (body_CredentialSchema (req_Body req)) = Ok schema
    /\ rand_Int64 (entropy w) = (Ok nonce, en)
    /\ let claimReq :=
         ports_NewClaimRequest schema did
           (body_CredentialSchema (req_Body req))
           (body_CredentialSubject (req_Body req))
           (body_Expiration (req_Body req)) (body_Type (req_Body req))
           (body_Version (req_Body req))
           (body_SubjectPosition (req_Body req))
           (body_MerklizedRootPosition (req_Body req)) in
       ports.CreateVC (claimService s) claimReq nonce = Ok vc
       /\ {| ev_call := call_CreateVC claimReq nonce; ev_err := None |}
            ∈ trace (CreateClaim s req) w
       /\ url = ports.CredentialSchema claimReq
       /\ opts =
            {| processor.RevNonce := nonce;
               processor.MerklizedRootPosition :=
                 common_DefineMerklizedRootPosition
                   (jsonSuite.Metadata schema)
                   (ports.MerklizedRootPosition claimReq);
               processor.Version := ports.Version claimReq;
               processor.SubjectPosition := ports.SubjectPos claimReq;
               processor.Updatable := false |}.
Proof.
  run_CreateClaim s req w.
  all: intros Hin; split_elem.
  all: normalize_hyps.
  all: do 4 eexists; split; [ reflexivity | ]; split; [ reflexivity | ];
    split; [ eassumption | ].
  all: cbv zeta; split; [ eassumption | ];
    split; [ repeat constructor | ].
  all: match goal with
       | H : jsonSuite.Metadata _ = Some _ |- _ => rewrite H
       end.
  all: split; reflexivity.
Qed.

(** X5. The entropy source is read by the one draw of the nonce and by
    nothing else: after a run it is what [rand.Int64] left when the
    nonce was drawn, whatever failed later, and it is untouched when the
    run ended before the draw. *)
Theorem CreateClaim_entropy {O : Opaque} {P : Packages}
    (s : Server) (req : CreateClaimRequestObject) (w : World) :
  entropy (final (CreateClaim s req) w) =
    if drew (trace (CreateClaim s req) w)
    then (rand_Int64 (entropy w)).2
    else entropy w.
Proof.
  run_CreateClaim s req w.
  all: normalize_hyps; cbn [drew existsb ev_call orb];
    try reflexivity.
  all: match goal with
       | H : rand_Int64 _ = _ |- _ => by rewrite H
       end.
Qed.

(** X6. What a run of [CreateClaim] logs. A failing call adds the one
    Error line of its stage with the error, except that a failure of
    identifier parsing or of schema loading adds nothing. A run without
    a failing call makes no call, or goes through the whole pipeline, or
    panics, and then logs nothing; or it answers 400 "invalid
    jsonLdContext" and logs the Warn line of that name. *)
Theorem CreateClaim_logging {O : Opaque} {P : Packages}
    (s : Server) (req : CreateClaimRequestObject) (w : World) :
  let tr := trace (CreateClaim s req) w in
  let lines := logged (final (CreateClaim s req) w) in
  let invalid :=
    returns
      (Some (CreateClaim400JSONResponse
               {| Message400 := "invalid jsonLdContext" |}), None) in
  (forall ev e,
     ev ∈ tr -> ev_err ev = Some e ->
     lines = (logged w ++ failure_log (stage_of (ev_call ev)) e)%list)
  /\ (forallb succeeded tr = true ->
      stages tr = [] \/ stages tr = pipeline
      \/ (exists v, response (CreateClaim s req) w = panics v)
      \/ response (CreateClaim s req) w = invalid)
  /\ (forallb succeeded tr = true ->
      stages tr = [] \/ stages tr = pipeline
      \/ (exists v, response (CreateClaim s req) w = panics v) ->
      lines = logged w)
  /\ (forallb succeeded tr = true ->
      response (CreateClaim s req) w = invalid ->
      lines =
        (logged w ++
         [ {| log_level := level_Warn; log_msg := "invalid jsonLdContext";
              log_err := None |} ])%list).
Proof.
  run_CreateClaim s req w.
  all: split;
    [ intros ev err Hin Herr; split_elem; try discriminate Herr;
      injection Herr as ->; cbn;
      rewrite ?app_nil_r; reflexivity
    | ].
  all: cbn; split; [ intros Hok; try discriminate Hok; eauto | ].
  all: split;
    [ intros Hok [Hst|[Hst|[v Hst]]];
      try discriminate Hok; try discriminate Hst; reflexivity
    | intros Hok Hinv; try discriminate Hok; try discriminate Hinv;
      reflexivity ].
Qed.

(** X7. On a 201, the claim handed to [Save] is the claim [FromClaimer]
    built from the core claim that [Process] returned, with nothing but
    [Identifier], [Issuer], [SignatureProof], [Data] and
    [CredentialStatus] changed. *)
Theorem CreateClaim_keeps_built_claim {O : Opaque} {P : Packages}
    (s : Server) (req : CreateClaimRequestObject) (w : World) (id : string) :
  response (CreateClaim s req) w =
    returns (Some (CreateClaim201JSONResponse id), None) ->
  exists claim built coreClaim url credentialType vc opts,
    saved_claims (trace (CreateClaim s req) w) = [claim]
    /\ ports.Process (schemaService s) url credentialType vc opts
         = Ok coreClaim
    /\ domain_FromClaimer coreClaim url credentialType = Ok built
    /\ domain.ID claim = domain.ID built
    /\ domain.SchemaURL claim = domain.SchemaURL built
    /\ domain.SchemaType claim = domain.SchemaType built
    /\ domain.RevNonce claim = domain.RevNonce built
    /\ domain.CoreClaim_ claim = domain.CoreClaim_ built.
Proof.
  run_CreateClaim s req w.
  all: intros Hres; try discriminate Hres.
  do 7 eexists. split; [ reflexivity | ].
  split; [ eassumption | ]. split; [ eassumption | ].
  cbn. repeat split.
Qed.

(** X8. Whenever the signature proof is marshalled, it is the proof
    that [SignClaimEntry] returned for the issuer's auth claim and for
    the core claim that [Process] returned, with the credential status
    of its issuer data replaced by the revocation source of the issuer's
    DID string and of the auth claim's revocation nonce as an unsigned
    64-bit number; the rest of the issuer data and of the proof is
    kept. *)
Theorem CreateClaim_proof_assembly {O : Opaque} {P : Packages}
    (s : Server) (req : CreateClaimRequestObject) (w : World)
    (marshalled : verifiable.BJJSignatureProof2021) (err : option error) :
  {| ev_call := call_json_Marshal marshalled; ev_err := err |}
    ∈ trace (CreateClaim s req) w ->
  exists did authClaim coreClaim proof url credentialType vc opts,
    let source :=
      ports.GetRevocationSource (claimService s) (DID_String did)
        (uint64 (domain.RevNonce authClaim)) in
    core_ParseDID (req_Identifier req) = Ok did
    /\ ports.GetAuthClaim (claimService s) did (store w) = Ok authClaim
    /\ {| ev_call := call_Process url credentialType vc opts;
          ev_err := None |} ∈ trace (CreateClaim s req) w
    /\ ports.Process (schemaService s) url credentialType vc opts
         = Ok coreClaim
    /\ {| ev_call := call_SignClaimEntry authClaim coreClaim;
          ev_err := None |} ∈ trace (CreateClaim s req) w
    /\ ports.SignClaimEntry (identityService s) authClaim coreClaim
         = Ok proof
    /\ {| ev_call :=
            call_GetRevocationSource (DID_String did)
              (uint64 (domain.RevNonce authClaim));
          ev_err := None |} ∈ trace (CreateClaim s req) w
    /\ (0 <= uint64 (domain.RevNonce authClaim) < 2 ^ 64)
    /\ verifiable.IssuerCredentialStatus (verifiable.IssuerData marshalled)
         = source
    /\ verifiable.IssuerRest (verifiable.IssuerData marshalled)
         = verifiable.IssuerRest (verifiable.IssuerData proof)
    /\ verifiable.Rest marshalled = verifiable.Rest proof.
Proof.
  run_CreateClaim s req w.
  all: intros Hin; split_elem.
  all: normalize_hyps.
  all: do 8 eexists; cbv zeta; split; [ reflexivity | ];
    split; [ eassumption | ];
    split; [ repeat constructor | ];
    split; [ eassumption | ];
    split; [ repeat constructor | ];
    split; [ eassumption | ];
    split; [ repeat constructor | ];
    split; [ apply Z.mod_pos_bound; lia | ];
    split; [ reflexivity | ]; split; reflexivity.
Qed.

(** X9. [RevokeClaim] makes one call, [Revoke], with the identifier of
    the request, an empty description and the nonce converted to an
    unsigned 64-bit number: a nonce from 0 up is passed as it is, a
    negative one is passed as nonce + 2^64. It draws no entropy and
    logs nothing. *)
Theorem RevokeClaim_call {O : Opaque} {P : Packages}
    (s : Server) (req : RevokeClaimRequestObject) (w : World) :
  let n := revoke_Nonce req in
  trace (RevokeClaim s req) w =
    [ {| ev_call := call_Revoke (revoke_Identifier req) (uint64 n) "";
         ev_err :=
           (ports.Revoke (claimService s) (revoke_Identifier req)
              (uint64 n) "" (store w)).1 |} ]
  /\ (0 <= uint64 n < 2 ^ 64)
  /\ (0 <= n < 2 ^ 63 -> uint64 n = n)
  /\ (- 2 ^ 63 <= n < 0 -> uint64 n = n + 2 ^ 64)
  /\ entropy (final (RevokeClaim s req) w) = entropy w
  /\ logged (final (RevokeClaim s req) w) = logged w.
Proof.
  cbv zeta. unfold trace, final, RevokeClaim, seq, call_effect, Return.
  destruct (ports.Revoke _ _ _ _ _) as [[err|] st]; cbn [fst snd].
  - destruct (errors_Is _ _); cbn [fst snd calls emit with_store
      entropy logged]; rewrite drop_app_length.
    all: repeat split; try (apply Z.mod_pos_bound; lia).
    all: intros Hn; unfold uint64.
    all: first [ apply Z.mod_small; lia
               | rewrite <- (Z.mod_add _ 1) by lia;
                 rewrite Z.mul_1_l; apply Z.mod_small; lia ].
  - cbn [fst snd calls emit with_store entropy logged].
    rewrite drop_app_length.
    repeat split; try (apply Z.mod_pos_bound; lia).
    all: intros Hn; unfold uint64.
    all: first [ apply Z.mod_small; lia
               | rewrite <- (Z.mod_add _ 1) by lia;
                 rewrite Z.mul_1_l; apply Z.mod_small; lia ].
Qed.

Lemma errors_Is_refl (e : error) : errors_Is e e = true.
Proof.
  destruct e; cbn; unfold error_eqb; rewrite bool_decide_eq_true_2; done.
Qed.

Lemma errors_Is_wrap_chain (ws : list (positive * string)) (e : error) :
  errors_Is (wrap_chain ws e) e = true.
Proof.
  induction ws as [|[a t] ws IH]; cbn.
  - apply errors_Is_refl.
  - fold (wrap_chain ws e). rewrite IH. apply orb_true_r.
Qed.

(** X10. When the error of [Revoke] is the claim-does-not-exist error of
    the repositories wrapped any number of times, [RevokeClaim] still
    answers 404, and with its own fixed message, not with the text of
    the error. *)
Theorem RevokeClaim_wrapped_not_found {O : Opaque} {P : Packages}
    (s : Server) (req : RevokeClaimRequestObject) (w : World)
    (ws : list (positive * string)) :
  (ports.Revoke (claimService s) (revoke_Identifier req)
     (uint64 (revoke_Nonce req)) "" (store w)).1
    = Some (wrap_chain ws repositories_ErrClaimDoesNotExist) ->
  response (RevokeClaim s req) w =
    (Some (RevokeClaim404JSONResponse
             {| Message404 := "the claim does not exist" |}), None).
Proof.
  intros Hrevoke.
  unfold response, RevokeClaim, seq, call_effect, Return.
  destruct (ports.Revoke _ _ _ _ _) as [res st]. cbn [fst] in Hrevoke.
  subst res. cbn [fst]. by rewrite errors_Is_wrap_chain.
Qed.

(** X11. [CreateIdentity] makes one call, [Create], with the server URL,
    a colon and the port in decimal, and leaves the store as [Create]
    left it, whether it failed or not. When [Create] succeeds the answer
    is the 201 with every field of the identity and of its state copied,
    the identifier and the state both present, and a nil error. *)
Theorem CreateIdentity_delegates {O : Opaque} {P : Packages}
    (s : Server) (rq : CreateIdentityRequestObject) (w : World) :
  let hostURL :=
    config.ServerUrl (cfg s) +:+ ":" +:+ pretty (config.ServerPort (cfg s)) in
  let outcome := ports.Create (identityService s) hostURL (store w) in
  trace (CreateIdentity s rq) w =
    [ {| ev_call := call_Create hostURL; ev_err := result_err outcome.1 |} ]
  /\ store (final (CreateIdentity s rq) w) = outcome.2
  /\ entropy (final (CreateIdentity s rq) w) = entropy w
  /\ logged (final (CreateIdentity s rq) w) = logged w
  /\ forall identity,
       outcome.1 = Ok identity ->
       exists r st,
         response (CreateIdentity s rq) w = (Some (CreateIdentity201 r), None)
         /\ resp_Identifier r = Some (domain.IdIdentifier identity)
         /\ resp_Immutable r = domain.Immutable identity
         /\ resp_Relay r = domain.Relay identity
         /\ resp_State r = Some st
         /\ BlockNumber st = domain.BlockNumber (domain.State identity)
         /\ BlockTimestamp st = domain.BlockTimestamp (domain.State identity)
         /\ ClaimsTreeRoot st = domain.ClaimsTreeRoot (domain.State identity)
         /\ CreatedAt st = domain.CreatedAt (domain.State identity)
         /\ ModifiedAt st = domain.ModifiedAt (domain.State identity)
         /\ PreviousState st = domain.PreviousState (domain.State identity)
         /\ RevocationTreeRoot st =
              domain.RevocationTreeRoot (domain.State identity)
         /\ RootOfRoots st = domain.RootOfRoots (domain.State identity)
         /\ State st = domain.State_ (domain.State identity)
         /\ Status st = domain.Status (domain.State identity)
         /\ TxID st = domain.TxID (domain.State identity).
Proof.
  cbv zeta. unfold trace, final, response, CreateIdentity. cbv zeta.
  rewrite check_write. unfold Sprintf_s_colon_d.
  destruct (ports.Create _ _ _) as [[identity|e] st];
    unfold Return; cbn [fst snd calls store entropy logged emit with_store
                        result_err];
    rewrite drop_app_length.
  - repeat split. intros ? [= <-]. do 2 eexists. repeat split.
  - repeat split. intros ? [=].
Qed.

(** X12. Each controller depends only on the parts of the server it
    needs: [CreateClaim] never reads the configuration, [RevokeClaim]
    talks to the claim service alone, and [CreateIdentity] to the
    identity service alone, with the configuration. *)
Theorem controllers_use_their_services {O : Opaque} {P : Packages}
    (cfg1 cfg2 : config.Configuration)
    (is1 is2 : ports.IndentityService) (cs1 cs2 : ports.ClaimsService)
    (ss1 ss2 : ports.SchemaService) :
  (forall req,
     CreateClaim (NewServer cfg1 is1 cs1 ss1) req =
     CreateClaim (NewServer cfg2 is1 cs1 ss1) req)
  /\ (forall req,
        RevokeClaim (NewServer cfg1 is1 cs1 ss1) req =
        RevokeClaim (NewServer cfg2 is2 cs1 ss2) req)
  /\ (forall rq,
        CreateIdentity (NewServer cfg1 is1 cs1 ss1) rq =
        CreateIdentity (NewServer cfg1 is1 cs2 ss2) rq).
Proof. repeat split. Qed.

(** X13. When the file is read without error, [writeFile] on a writer
    that has sent nothing yet answers status 200 with the header
    Content-Type "text/html; charset=UTF-8" among the headers sent, and
    appends the bytes of the file to the body. *)
Theorem writeFile_serves_file {F : FileSystem} (path : string)
    (f : list Byte.byte) (r : httptest.ResponseRecorder) :
  os_ReadFile path = (f, None) ->
  httptest.sent r = None ->
  let r' := writeFile path httptest.recorder r in
  httptest.sent r' =
    Some (http.StatusOK,
          <["Content-Type" := "text/html; charset=UTF-8"]>
            (httptest.HeaderMap r))
  /\ httptest.Body r' = (httptest.Body r ++ f)%list.
Proof.
  intros Hread Hsent. unfold writeFile. rewrite Hread. cbn.
  unfold httptest.Write, httptest.WriteHeader, httptest.Header_Set. cbn.
  rewrite Hsent. cbn. done.
Qed.

(** X14. When reading the file fails, [writeFile] does not stop after
    the 404: on a writer that has sent nothing yet the status sent is
    404 with the headers as they were, so the later Content-Type and
    200 are never sent, and the body receives "not found" followed by
    whatever bytes the failed read returned. *)
Theorem writeFile_missing_file {F : FileSystem} (path : string)
    (f : list Byte.byte) (e : error) (r : httptest.ResponseRecorder) :
  os_ReadFile path = (f, Some e) ->
  httptest.sent r = None ->
  let r' := writeFile path httptest.recorder r in
  httptest.sent r' = Some (http.StatusNotFound, httptest.HeaderMap r)
  /\ httptest.Body r' =
       (httptest.Body r ++ String.list_byte_of_string "not found" ++ f)%list
  /\ httptest.HeaderMap r' =
       <["Content-Type" := "text/html; charset=UTF-8"]> (httptest.HeaderMap r).
Proof.
  intros Hread Hsent. unfold writeFile. rewrite Hread.
  cbn [http.WriteHeader http.Write http.Header_Set httptest.recorder].
  unfold httptest.Write, httptest.WriteHeader, httptest.Header_Set.
  rewrite Hsent.
  cbn [httptest.sent httptest.Body httptest.HeaderMap].
  rewrite <- app_assoc. done.
Qed.

(** X15. [RegisterStatic] registers [documentation] for GET "/" and
    [swagger] for GET "/static/docs/api/api.yaml", in the place of
    whatever was registered for these two, and leaves every other route
    of the mux as it was. Whatever the request, [documentation] is
    [writeFile] on "api/spec.html" and [swagger] is [writeFile] on
    "api/api.yaml". *)
Theorem RegisterStatic_routes {F : FileSystem} {W : Type}
    (mux : chi.Mux W) :
  RegisterStatic mux !! ("GET", "/") = Some documentation
  /\ RegisterStatic mux !! ("GET", "/static/docs/api/api.yaml")
       = Some swagger
  /\ (forall key : string * string,
        key <> ("GET", "/") ->
        key <> ("GET", "/static/docs/api/api.yaml") ->
        RegisterStatic mux !! key = mux !! key)
  /\ (forall (rw : http.ResponseWriter W) rq w,
        documentation rw rq w = writeFile "api/spec.html" rw w)
  /\ (forall (rw : http.ResponseWriter W) rq w,
        swagger rw rq w = writeFile "api/api.yaml" rw w).
Proof.
  unfold RegisterStatic, chi.Get, chi.Mux. cbv zeta.
  split; [ | split; [ | split; [ | split ] ] ].
  - rewrite lookup_insert_ne by discriminate. apply lookup_insert_eq.
  - apply lookup_insert_eq.
  - intros key Hroot Hyaml.
    rewrite lookup_insert_ne by congruence.
    by rewrite lookup_insert_ne by congruence.
  - reflexivity.
  - reflexivity.
Qed.

(** X16. The store after a run in which [Save] was called is the store
    [Save] left, and the error of the call is the error [Save] returned:
    when [Save] fails, [CreateClaim] answers 500 and undoes nothing. *)
Theorem CreateClaim_store_after_Save {O : Opaque} {P : Packages}
    (s : Server) (req : CreateClaimRequestObject) (w : World)
    (claim : domain.Claim) (err : option error) :
  {| ev_call := call_Save claim; ev_err := err |}
    ∈ trace (CreateClaim s req) w ->
  let outcome := ports.Save (claimService s) claim (store w) in
  store (final (CreateClaim s req) w) = outcome.2
  /\ result_err outcome.1 = err
  /\ forall e,
       err = Some e ->
       response (CreateClaim s req) w =
         returns (Some (CreateClaim500JSONResponse {| Message500 := Error e |}),
          None).
Proof.
  run_CreateClaim s req w.
  all: intros Hin; split_elem.
  all: normalize_hyps.
  all: match goal with
       | H : ports.Save _ _ _ = _ |- _ => cbv zeta; rewrite H
       end.
  all: cbn; repeat split; try done.
  intros ? [= <-]. reflexivity.
Qed.

(** X17. When the identifier parses and the schema resolves without
    metadata, [CreateClaim] never gets past the credential build: no
    call of the run is [Process] or a later stage and the store is left
    as it was. If the nonce draw and the credential build succeed it
    panics on the nil metadata, after exactly those four calls, with no
    response and no log line. *)
Theorem CreateClaim_nil_metadata_panics {O : Opaque} {P : Packages}
    (s : Server) (req : CreateClaimRequestObject) (w : World)
    (did : DID) (schema : jsonSuite.Schema) :
  req_Identifier req <> "" ->
  core_ParseDID (req_Identifier req) = Ok did ->
  ports.LoadSchema (schemaService s) (body_CredentialSchema (req_Body req))
    = Ok schema ->
  jsonSuite.Metadata schema = None ->
  let tr := trace (CreateClaim s req) w in
  (forallb succeeded tr = true ->
   response (CreateClaim s req) w = panics nil_pointer_dereference
   /\ stages tr =
        [ stage_ParseDID; stage_LoadSchema; stage_Nonce; stage_CreateVC ]
   /\ logged (final (CreateClaim s req) w) = logged w)
  /\ (forall ev, ev ∈ tr ->
        (stage_index (stage_of (ev_call ev)) < stage_index stage_Process)%nat)
  /\ store (final (CreateClaim s req) w) = store w.
Proof.
  intros Hid Hparse Hload Hmeta.
  start_run (CreateClaim s req w); unfold CreateClaim; cbv beta zeta.
  rewrite bool_decide_eq_false_2 by done.
  rewrite check_pure, Hparse. cbv beta iota zeta.
  rewrite check_pure, Hload. cbv beta iota zeta.
  rewrite Hmeta.
  run_to_exits.
  all: split; [ cbn; intros Hok; try discriminate Hok; done | ].
  all: split; [ intros ev Hin; split_elem; cbn; lia | done ].
Qed.

(** ** The further properties on the test doubles *)

Lemma CreateClaim_encoder_options_witness :
  exists nonce en,
    @rand_Int64 mock.opaque (mock.packages None) [42] = (Ok nonce, en)
    /\ {| processor.RevNonce := 42;
          processor.MerklizedRootPosition := "";
          processor.Version := 0;
          processor.SubjectPosition := "";
          processor.Updatable := false |} =
       {| processor.RevNonce := nonce;
          processor.MerklizedRootPosition := "";
          processor.Version := 0;
          processor.SubjectPosition := "";
          processor.Updatable := false |}.
Proof.
  destruct
    (@CreateClaim_encoder_options mock.opaque (mock.packages None)
       (mock.server None mock.uris_x mock.status_x)
       (mock.request "did:iden3:a") (mock.world [] [42])
       "https://x/schema.json" "https://x/ctx#Age"
       (@verifiable.Build_W3CCredential mock.opaque mock.status_x tt)
       {| processor.RevNonce := 42;
          processor.MerklizedRootPosition := "";
          processor.Version := 0;
          processor.SubjectPosition := "";
          processor.Updatable := false |}
       None)
    as (did & schema & nonce & en & _ & _ & Hrand & _ & _ & _ & Hopts).
  - vm_compute. repeat constructor.
  - exists nonce, en. split; [ exact Hrand | ].
    injection Hopts as Hnonce. by rewrite <- Hnonce.
Defined.

Lemma CreateClaim_keeps_built_claim_witness :
  exists claim built,
    saved_claims
      (trace (mock.issue None mock.uris_x mock.status_x "did:iden3:a")
         (mock.world [] [42])) = [claim]
    /\ domain.ID claim = domain.ID built
    /\ domain.RevNonce claim = domain.RevNonce built.
Proof.
  destruct
    (@CreateClaim_keeps_built_claim mock.opaque (mock.packages None)
       (mock.server None mock.uris_x mock.status_x)
       (mock.request "did:iden3:a") (mock.world [] [42]) "claim-1" eq_refl)
    as (claim & built & _ & _ & _ & _ & _ & Hsaved & _ & _ & Hid & _ & _
        & Hnonce & _).
  exists claim, built.
  split; [ exact Hsaved | ]. split; [ exact Hid | exact Hnonce ].
Defined.

Lemma CreateClaim_proof_assembly_witness :
  exists did authClaim,
    @core_ParseDID mock.opaque (mock.packages (Some stage_Marshal))
      "did:iden3:a" = Ok did
    /\ ports.GetAuthClaim
         (claimService
            (mock.server (Some stage_Marshal) mock.uris_x mock.status_x))
         did [] = Ok authClaim.
Proof.
  destruct
    (@CreateClaim_proof_assembly mock.opaque
       (mock.packages (Some stage_Marshal))
       (mock.server (Some stage_Marshal) mock.uris_x mock.status_x)
       (mock.request "did:iden3:a") (mock.world [] [42])
       (@verifiable.Build_BJJSignatureProof2021 mock.opaque
          (@verifiable.Build_IssuerData_t mock.opaque
             (any_object [("id", any_string "did:iden3:a");
                          ("revocationNonce", any_number 0)])
             tt)
          tt)
       (Some (mock.failure stage_Marshal)))
    as (did & authClaim & coreClaim & proof & url & typ & vc & opts & Hrun).
  - vm_compute. repeat constructor.
  - cbv zeta in Hrun. destruct Hrun as (Hdid & Hauth & _).
    exists did, authClaim. split; [ exact Hdid | exact Hauth ].
Defined.

Lemma CreateClaim_logging_witness :
  logged
    (final (mock.issue (Some stage_Sign) mock.uris_x mock.status_x
              "did:iden3:a") (mock.world [] [42])) =
    [ {| log_level := level_Error; log_msg := "Can not sign claim entry";
         log_err := Some (mock.failure stage_Sign) |} ].
Proof.
  destruct
    (@CreateClaim_logging mock.opaque (mock.packages (Some stage_Sign))
       (mock.server (Some stage_Sign) mock.uris_x mock.status_x)
       (mock.request "did:iden3:a") (mock.world [] [42]))
    as (Hfail & _).
  apply
    (Hfail
       {| ev_call := @call_SignClaimEntry mock.opaque mock.authClaim 42;
          ev_err := Some (mock.failure stage_Sign) |}
       (mock.failure stage_Sign)).
  - vm_compute. repeat constructor.
  - reflexivity.
Defined.

Lemma RevokeClaim_call_witness :
  trace (mock.revoke None "did:iden3:a" (-1))
    (mock.world [("did:iden3:a", 2 ^ 64 - 1)] []) =
    [ {| ev_call := @call_Revoke mock.opaque "did:iden3:a" (2 ^ 64 - 1) "";
         ev_err := None |} ].
Proof.
  destruct
    (@RevokeClaim_call mock.opaque (mock.packages None)
       (mock.server None mock.uris_x mock.status_x)
       {| revoke_Identifier := "did:iden3:a"; revoke_Nonce := -1 |}
       (mock.world [("did:iden3:a", 2 ^ 64 - 1)] []))
    as (Htrace & _).
  exact Htrace.
Defined.

Lemma RevokeClaim_wrapped_not_found_witness :
  response (mock.revoke None "did:iden3:a" 42) (mock.world [] []) =
    (Some (RevokeClaim404JSONResponse
             {| Message404 := "the claim does not exist" |}), None).
Proof.
  apply
    (@RevokeClaim_wrapped_not_found mock.opaque (mock.packages None)
       (mock.server None mock.uris_x mock.status_x)
       {| revoke_Identifier := "did:iden3:a"; revoke_Nonce := 42 |}
       (mock.world [] [])
       [ (101%positive, "revoke: claim does not exist") ]).
  reflexivity.
Defined.

Lemma CreateIdentity_delegates_witness :
  trace (mock.create None) (mock.world [] []) =
    [ {| ev_call := @call_Create mock.opaque "http://localhost:3001";
         ev_err := None |} ]
  /\ exists r,
       response (mock.create None) (mock.world [] []) =
         (Some (CreateIdentity201 r), None)
       /\ resp_Identifier r = Some "did:iden3:issuer".
Proof.
  destruct
    (@CreateIdentity_delegates mock.opaque (mock.packages None)
       (mock.server None mock.uris_x mock.status_x)
       Build_CreateIdentityRequestObject (mock.world [] []))
    as (Htrace & _ & _ & _ & Hok).
  split; [ exact Htrace | ].
  destruct (Hok mock.identity eq_refl) as (r & st & Hres & Hid & _).
  exists r. split; [ exact Hres | exact Hid ].
Defined.

Lemma writeFile_serves_file_witness :
  let page := String.list_byte_of_string "<html></html>" in
  let r :=
    @writeFile (httptest.files {[ "api/spec.html" := page ]}) _
      "api/spec.html" httptest.recorder httptest.NewRecorder in
  httptest.sent r =
    Some (200, {[ "Content-Type" := "text/html; charset=UTF-8" ]})
  /\ httptest.Body r = page.
Proof.
  cbv zeta.
  destruct
    (@writeFile_serves_file
       (httptest.files
          {[ "api/spec.html" := String.list_byte_of_string "<html></html>" ]})
       "api/spec.html" (String.list_byte_of_string "<html></html>")
       httptest.NewRecorder)
    as (Hsent & Hbody).
  - reflexivity.
  - reflexivity.
  - split; [ exact Hsent | exact Hbody ].
Defined.

Lemma writeFile_missing_file_witness :
  let r :=
    @writeFile (httptest.files ∅) _ "api/spec.html" httptest.recorder
      httptest.NewRecorder in
  httptest.sent r = Some (404, ∅)
  /\ httptest.Body r = String.list_byte_of_string "not found".
Proof.
  cbv zeta.
  destruct
    (@writeFile_missing_file (httptest.files ∅) "api/spec.html" []
       (errors_New 200 "no such file or directory") httptest.NewRecorder)
    as (Hsent & Hbody & _).
  - reflexivity.
  - reflexivity.
  - split; [ exact Hsent | exact Hbody ].
Defined.

Lemma RegisterStatic_routes_witness :
  let fs := httptest.files ∅ in
  let old : chi.Mux httptest.ResponseRecorder :=
    {[ ("GET", "/") := @swagger fs httptest.ResponseRecorder ]} in
  @RegisterStatic fs _ old !! ("GET", "/") = Some (@documentation fs _).
Proof.
  cbv zeta.
  destruct
    (@RegisterStatic_routes (httptest.files ∅) httptest.ResponseRecorder
       {[ ("GET", "/") :=
            @swagger (httptest.files ∅) httptest.ResponseRecorder ]})
    as (Hroot & _).
  exact Hroot.
Defined.

Lemma CreateClaim_store_after_Save_witness :
  response (mock.issue (Some stage_Save) mock.uris_x any_nil "did:iden3:a")
    (mock.world [("did:iden3:b", 7)] [42]) =
    returns
      (Some (CreateClaim500JSONResponse {| Message500 := "stub failure" |}),
       None)
  /\ store
       (final (mock.issue (Some stage_Save) mock.uris_x any_nil "did:iden3:a")
          (mock.world [("did:iden3:b", 7)] [42])) = [("did:iden3:b", 7)].
Proof.
  destruct
    (@CreateClaim_store_after_Save mock.opaque
       (mock.packages (Some stage_Save))
       (mock.server (Some stage_Save) mock.uris_x any_nil)
       (mock.request "did:iden3:a") (mock.world [("did:iden3:b", 7)] [42])
       (@domain.Build_Claim mock.opaque "" (Some "did:iden3:a")
          "did:iden3:a" "https://x/schema.json" "https://x/ctx#Age" 42
          {| pgtype.Bytes := mock.json_braces;
             pgtype.Status_ := pgtype.Present |}
          {| pgtype.Bytes := mock.json_braces;
             pgtype.Status_ := pgtype.Present |}
          {| pgtype.Bytes := []; pgtype.Status_ := pgtype.Null |} 42)
       (Some (mock.failure stage_Save)))
    as (Hstore & _ & H500).
  - vm_compute. repeat constructor.
  - split; [ exact (H500 _ eq_refl) | exact Hstore ].
Defined.

Lemma CreateClaim_nil_metadata_panics_witness :
  response (mock.issue_bare None mock.status_x "did:iden3:a")
    (mock.world [] [42]) = panics nil_pointer_dereference
  /\ store (final (mock.issue_bare None mock.status_x "did:iden3:a")
              (mock.world [] [42])) = [].
Proof.
  destruct
    (@CreateClaim_nil_metadata_panics mock.opaque (mock.packages None)
       (mock.server_with None None mock.status_x)
       (mock.request "did:iden3:a") (mock.world [] [42])
       "did:iden3:a" {| jsonSuite.Metadata := None |})
    as (Hpanic & _ & Hstore).
  - discriminate.
  - reflexivity.
  - reflexivity.
  - reflexivity.
  - destruct (Hpanic eq_refl) as (Hres & _).
    split; [ exact Hres | exact Hstore ].
Defined.
